(** * Groundwater report pipeline: value coercion, sectioned scanning,
      identity assignment, metric facts and chunk formatting.

    A shallow embedding of the parts of
    - [scripts/state_report_etl.py],
    - [scripts/central_annexure_attribute_etl.py],
    - [scripts/semantic_chunker.py],
    - [scripts/unified_dataset_generator_optimized.py]
    that decide the properties stated at the end of the file.

    Conventions of the embedding.
    - A Python [str] is a [string] of ASCII characters; [lower], [upper],
      [strip], [title] and friends act on ASCII letters and on the ASCII
      white space of [str.isspace].
    - A Python [int] is a [Z].
    - A Python [float] is a [pyfloat]: a signed decimal [m * 10^e], an
      infinity or a NaN.  The decimal is read as the shortest [repr] of
      the float, so reading, printing, comparing, dividing by a power of
      ten and formatting to two decimals are exact; rounding to binary64
      and overflow are not modelled.
    - A computation that may raise is a [result]: [Ok v] or [Raise e],
      with [try ... except (ValueError, TypeError)] written out. *)

From Stdlib Require Import String Ascii ZArith NArith List Lia Bool.
From Stdlib Require Import DecimalString.
Import ListNotations.

Local Open Scope string_scope.
Local Open Scope Z_scope.

(* ====================================================================== *)
(** ** The Python values the scripts compute with *)
(* ====================================================================== *)

Module Py.

(** *** Exceptions and results *)

Inductive exn : Type :=
| ValueError
| TypeError
| OverflowError
| IndexError
| AttributeError.

Inductive result (A : Type) : Type :=
| Ok (a : A)
| Raise (e : exn).

Arguments Ok {A} a.
Arguments Raise {A} e.

Definition bind {A B : Type} (r : result A) (k : A -> result B) : result B :=
  match r with
  | Ok a => k a
  | Raise e => Raise e
  end.

Definition ret {A : Type} (a : A) : result A := Ok a.

Definition raises {A : Type} (r : result A) : bool :=
  match r with
  | Ok _ => false
  | Raise _ => true
  end.

(** The computation returns, whatever the value. *)
Definition is_ok {A : Type} (r : result A) : Prop := exists a, r = Ok a.

(** [try: r except (ValueError, TypeError): h] *)
Definition try_except_VT {A : Type} (r : result A) (h : result A) : result A :=
  match r with
  | Ok a => Ok a
  | Raise ValueError => h
  | Raise TypeError => h
  | Raise e => Raise e
  end.

(** *** Characters and strings *)

Definition code (c : ascii) : N := N_of_ascii c.

Definition is_digit (c : ascii) : bool :=
  ((48 <=? code c) && (code c <=? 57))%N.

Definition digit_val (c : ascii) : N := (code c - 48)%N.

Definition is_upper_char (c : ascii) : bool :=
  ((65 <=? code c) && (code c <=? 90))%N.

Definition is_lower_char (c : ascii) : bool :=
  ((97 <=? code c) && (code c <=? 122))%N.

Definition is_cased (c : ascii) : bool := is_upper_char c || is_lower_char c.

(** [str.isspace] on the ASCII range: TAB, LF, VT, FF, CR, FS, GS, RS, US
    and the space. *)
Definition is_space (c : ascii) : bool :=
  (((9 <=? code c) && (code c <=? 13))
   || ((28 <=? code c) && (code c <=? 32)))%N.

Definition lower_char (c : ascii) : ascii :=
  if is_upper_char c then ascii_of_N (code c + 32) else c.

Definition upper_char (c : ascii) : ascii :=
  if is_lower_char c then ascii_of_N (code c - 32) else c.

Fixpoint map_string (f : ascii -> ascii) (s : string) : string :=
  match s with
  | EmptyString => EmptyString
  | String c s' => String (f c) (map_string f s')
  end.

Definition lower (s : string) : string := map_string lower_char s.
Definition upper (s : string) : string := map_string upper_char s.

Fixpoint rev_string_aux (s acc : string) : string :=
  match s with
  | EmptyString => acc
  | String c s' => rev_string_aux s' (String c acc)
  end.

Definition rev_string (s : string) : string := rev_string_aux s EmptyString.

Fixpoint lstrip (s : string) : string :=
  match s with
  | EmptyString => EmptyString
  | String c s' => if is_space c then lstrip s' else s
  end.

Definition rstrip (s : string) : string := rev_string (lstrip (rev_string s)).

(** [s.strip()] *)
Definition strip (s : string) : string := rstrip (lstrip s).

(** What [strip] is to deliver: [t] is [s] without the white space at
    its two ends. *)
Fixpoint all_space (s : string) : bool :=
  match s with
  | EmptyString => true
  | String c s' => is_space c && all_space s'
  end.

Definition starts_space (s : string) : bool :=
  match s with
  | EmptyString => false
  | String c _ => is_space c
  end.

Definition ends_space (s : string) : bool := starts_space (rev_string s).

Definition trimmed_of (s t : string) : Prop :=
  exists l r, s = l ++ t ++ r /\ all_space l = true /\ all_space r = true
              /\ starts_space t = false /\ ends_space t = false.

(** [s.replace(c, "")] for a one-character [c] *)
Fixpoint remove_char (c : ascii) (s : string) : string :=
  match s with
  | EmptyString => EmptyString
  | String d s' => if Ascii.eqb c d then remove_char c s' else String d (remove_char c s')
  end.

(** [sub in s] *)
Fixpoint contains (sub s : string) : bool :=
  if prefix sub s then true
  else match s with
       | EmptyString => false
       | String _ s' => contains sub s'
       end.

(** [s in (t1, t2, ...)] for a tuple of strings *)
Definition str_in (s : string) (l : list string) : bool :=
  existsb (String.eqb s) l.

(** [sep.join(parts)] *)
Fixpoint join (sep : string) (parts : list string) : string :=
  match parts with
  | [] => ""
  | [p] => p
  | p :: rest => p ++ sep ++ join sep rest
  end.

(** A list of text parts mentions [sub] when one of them contains it. *)
Definition mentions (sub : string) (parts : list string) : Prop :=
  Exists (fun p => contains sub p = true) parts.

(** [s.isupper()]: at least one cased character and no lower-case one *)
Fixpoint has_cased (s : string) : bool :=
  match s with
  | EmptyString => false
  | String c s' => is_cased c || has_cased s'
  end.

Fixpoint no_lower (s : string) : bool :=
  match s with
  | EmptyString => true
  | String c s' => negb (is_lower_char c) && no_lower s'
  end.

Definition isupper (s : string) : bool := has_cased s && no_lower s.

(** [s.title()]: a cased character is upper-cased after an uncased one and
    lower-cased after a cased one. *)
Fixpoint title_aux (prev_cased : bool) (s : string) : string :=
  match s with
  | EmptyString => EmptyString
  | String c s' =>
      String (if prev_cased then lower_char c else upper_char c)
             (title_aux (is_cased c) s')
  end.

Definition title (s : string) : string := title_aux false s.

(** [s.isdigit()] *)
Fixpoint all_digits (s : string) : bool :=
  match s with
  | EmptyString => true
  | String c s' => is_digit c && all_digits s'
  end.

Definition isdigit (s : string) : bool :=
  match s with
  | EmptyString => false
  | _ => all_digits s
  end.

(** [str(n)] for an [int] *)
Definition str_of_Z (z : Z) : string := NilZero.string_of_int (Z.to_int z).

Definition str_of_N (n : N) : string := NilZero.string_of_uint (N.to_uint n).

Fixpoint repeat_char (c : ascii) (n : nat) : string :=
  match n with
  | O => EmptyString
  | S k => String c (repeat_char c k)
  end.

(** *** Floats *)

(** [FFin neg m e] is [(-1)^neg * m * 10^e]. *)
Inductive pyfloat : Type :=
| FFin (neg : bool) (m : N) (e : Z)
| FInf (neg : bool)
| FNan.

Fixpoint strip_zeros (fuel : nat) (m : N) (e : Z) : N * Z :=
  match fuel with
  | O => (m, e)
  | S k => if (m mod 10 =? 0)%N then strip_zeros k (m / 10)%N (e + 1) else (m, e)
  end.

(** The canonical decimal of a value: no trailing zero in the mantissa,
    exponent 0 for a zero. *)
Definition mk_fin (neg : bool) (m : N) (e : Z) : pyfloat :=
  if (m =? 0)%N then FFin neg 0 0
  else let '(m', e') := strip_zeros (N.to_nat (N.size m)) m e in FFin neg m' e'.

Definition pow10 (k : Z) : Z := 10 ^ k.

(** The two integers [(a, b)] with [|f| = a / b], [b] a power of ten. *)
Definition fin_ratio (m : N) (e : Z) : Z * Z :=
  if 0 <=? e then (Z.of_N m * pow10 e, 1) else (Z.of_N m, pow10 (- e)).

(** [float(n)] for an [int] *)
Definition float_of_Z (z : Z) : pyfloat := mk_fin (z <? 0) (Z.abs_N z) 0.

(** [int(f)]: truncation towards zero; infinities and NaN raise. *)
Definition int_of_float (f : pyfloat) : result Z :=
  match f with
  | FFin neg m e =>
      let '(a, b) := fin_ratio m e in
      let q := a / b in
      Ok (if neg then - q else q)
  | FInf _ => Raise OverflowError
  | FNan => Raise ValueError
  end.

(** [abs(f)] *)
Definition fabs (f : pyfloat) : pyfloat :=
  match f with
  | FFin _ m e => FFin false m e
  | FInf _ => FInf false
  | FNan => FNan
  end.

(** Three-way comparison of a float with an [int]; [None] for NaN. *)
Definition fcompare_Z (f : pyfloat) (z : Z) : option comparison :=
  match f with
  | FFin neg m e =>
      let '(a, b) := fin_ratio m e in
      Some ((if neg then - a else a) ?= z * b)
  | FInf true => Some Lt
  | FInf false => Some Gt
  | FNan => None
  end.

(** [f == z], [f < z], [f >= z], [f > z] for an [int] [z] *)
Definition feq_Z (f : pyfloat) (z : Z) : bool :=
  match fcompare_Z f z with Some Eq => true | _ => false end.

Definition flt_Z (f : pyfloat) (z : Z) : bool :=
  match fcompare_Z f z with Some Lt => true | _ => false end.

Definition fge_Z (f : pyfloat) (z : Z) : bool :=
  match fcompare_Z f z with Some Eq | Some Gt => true | _ => false end.

Definition fgt_Z (f : pyfloat) (z : Z) : bool :=
  match fcompare_Z f z with Some Gt => true | _ => false end.

(** [f / 10**k] for [k >= 0] *)
Definition fdiv_pow10 (f : pyfloat) (k : Z) : pyfloat :=
  match f with
  | FFin neg m e => mk_fin neg m (e - k)
  | FInf neg => FInf neg
  | FNan => FNan
  end.

(** The integer a finite float is equal to, when it is one. *)
Definition integral_value (f : pyfloat) : option Z :=
  match f with
  | FFin neg m e =>
      let '(a, b) := fin_ratio m e in
      if a mod b =? 0 then Some (if neg then - (a / b) else a / b) else None
  | _ => None
  end.

(** Truthiness of a float: everything but the zeros. *)
Definition float_truthy (f : pyfloat) : bool :=
  match f with
  | FFin _ m _ => negb (m =? 0)%N
  | _ => true
  end.

(** Rounding [a / b] to the nearest integer, ties to even ([a >= 0], [b > 0]). *)
Definition round_half_even (a b : Z) : Z :=
  let q := a / b in
  let r := a mod b in
  match 2 * r ?= b with
  | Lt => q
  | Gt => q + 1
  | Eq => if Z.even q then q else q + 1
  end.

Definition pad2 (n : Z) : string :=
  if n <? 10 then "0" ++ str_of_Z n else str_of_Z n.

(** [f"{f:.2f}"] *)
Definition format_2f (f : pyfloat) : string :=
  match f with
  | FFin neg m e =>
      let '(a, b) := fin_ratio m e in
      let n := round_half_even (a * 100) b in
      (if neg then "-" else "") ++ str_of_Z (n / 100) ++ "." ++ pad2 (n mod 100)
  | FInf neg => if neg then "-inf" else "inf"
  | FNan => "nan"
  end.

(** [repr(f)]: the digits of the mantissa with the point placed at
    [decpt]; exponent notation when [decpt <= -4] or [decpt > 16]. *)
Definition repr_exp (x : Z) : string :=
  (if x <? 0 then "-" else "+") ++ pad2 (Z.abs x).

Definition float_repr (f : pyfloat) : string :=
  match f with
  | FFin neg m e =>
      let sign := if neg then "-" else "" in
      if (m =? 0)%N then sign ++ "0.0"
      else
        let ds := str_of_N m in
        let n := Z.of_nat (String.length ds) in
        let decpt := n + e in
        if (decpt <=? -4) || (16 <? decpt) then
          match ds with
          | String d EmptyString => sign ++ String d ("e" ++ repr_exp (decpt - 1))
          | String d rest => sign ++ String d ("." ++ rest ++ "e" ++ repr_exp (decpt - 1))
          | EmptyString => sign
          end
        else if decpt <=? 0 then
          sign ++ "0." ++ repeat_char "0" (Z.to_nat (- decpt)) ++ ds
        else if n <=? decpt then
          sign ++ ds ++ repeat_char "0" (Z.to_nat (decpt - n)) ++ ".0"
        else
          sign ++ substring 0 (Z.to_nat decpt) ds ++ "."
               ++ substring (Z.to_nat decpt) (Z.to_nat (n - decpt)) ds
  | FInf neg => if neg then "-inf" else "inf"
  | FNan => "nan"
  end.

(** *** Reading a float from a string *)

(** Digits with single underscores between them, after a first digit. *)
Fixpoint scan_digits (s : string) (acc : N) (n : Z) : N * Z * string :=
  match s with
  | String c s' =>
      if is_digit c then scan_digits s' (acc * 10 + digit_val c)%N (n + 1)
      else if Ascii.eqb c "_" then
        match s' with
        | String d s'' =>
            if is_digit d then scan_digits s'' (acc * 10 + digit_val d)%N (n + 1)
            else (acc, n, s)
        | EmptyString => (acc, n, s)
        end
      else (acc, n, s)
  | EmptyString => (acc, n, s)
  end.

(** [digitpart acc s]: a non-empty run of digits continuing the number
    [acc]; gives the number, how many digits were read and the rest. *)
Definition digitpart (acc : N) (s : string) : option (N * Z * string) :=
  match s with
  | String c s' => if is_digit c then Some (scan_digits s' (acc * 10 + digit_val c)%N 1) else None
  | EmptyString => None
  end.

Definition read_sign (s : string) : bool * string :=
  match s with
  | String "-" s' => (true, s')
  | String "+" s' => (false, s')
  | _ => (false, s)
  end.

(** The exponent part: [e] or [E], an optional sign and digits, up to the
    end of the string. *)
Definition read_exponent (s : string) : option Z :=
  match s with
  | EmptyString => Some 0
  | String c s' =>
      if Ascii.eqb c "e" || Ascii.eqb c "E" then
        let '(neg, s1) := read_sign s' in
        match digitpart 0 s1 with
        | Some (x, _, EmptyString) => Some (if neg then - Z.of_N x else Z.of_N x)
        | _ => None
        end
      else None
  end.

(** The fraction and exponent after the integer digits [m]. *)
Definition read_fraction (m : N) (have_int : bool) (s : string) : option (N * Z) :=
  match s with
  | String "." s' =>
      match digitpart m s' with
      | Some (m', k, rest) =>
          match read_exponent rest with
          | Some x => Some (m', x - k)
          | None => None
          end
      | None =>
          if have_int then
            match read_exponent s' with
            | Some x => Some (m, x)
            | None => None
            end
          else None
      end
  | _ =>
      if have_int then
        match read_exponent s with
        | Some x => Some (m, x)
        | None => None
        end
      else None
  end.

Definition read_number (s : string) : option (N * Z) :=
  match digitpart 0 s with
  | Some (m, _, rest) => read_fraction m true rest
  | None => read_fraction 0 false s
  end.

(** [float(s)] for a string: white space around, a sign, then [inf],
    [infinity] or [nan] in any case, or a decimal number. *)
Definition float_of_string (s : string) : result pyfloat :=
  let '(neg, body) := read_sign (strip s) in
  let low := lower body in
  if String.eqb low "inf" || String.eqb low "infinity" then Ok (FInf neg)
  else if String.eqb low "nan" then Ok FNan
  else match read_number body with
       | Some (m, e) => Ok (mk_fin neg m e)
       | None => Raise ValueError
       end.


(** *** Values and the built-in functions used on them *)

(** What a spreadsheet cell or a JSON document holds; a [dict] has
    string keys and keeps its insertion order. *)
#[warnings="-register-all"]
Inductive pyval : Type :=
| PNone
| PBool (b : bool)
| PInt (z : Z)
| PFloat (f : pyfloat)
| PStr (s : string)
| PDict (kvs : list (string * pyval))
| PList (items : list pyval).

Definition is_none (v : pyval) : bool :=
  match v with PNone => true | _ => false end.

(** [bool(v)] *)
Definition truthy (v : pyval) : bool :=
  match v with
  | PNone => false
  | PBool b => b
  | PInt z => negb (z =? 0)
  | PFloat f => float_truthy f
  | PStr s => negb (String.eqb s "")
  | PDict kvs => match kvs with [] => false | _ => true end
  | PList l => match l with [] => false | _ => true end
  end.

(** [v == s] for a string [s] *)
Definition eq_str (v : pyval) (s : string) : bool :=
  match v with
  | PStr t => String.eqb t s
  | _ => false
  end.

Definition hex_digit (n : N) : ascii :=
  if (n <? 10)%N then ascii_of_N (48 + n) else ascii_of_N (87 + n).

(** One character of [repr(s)] inside the quotes [q]. *)
Definition repr_char (q c : ascii) : string :=
  if Ascii.eqb c q || Ascii.eqb c "\" then String "\" (String c "")
  else if (code c =? 9)%N then "\t"
  else if (code c =? 10)%N then "\n"
  else if (code c =? 13)%N then "\r"
  else if (code c <? 32)%N || (code c =? 127)%N
  then "\x" ++ String (hex_digit (code c / 16)) (String (hex_digit (code c mod 16)) "")
  else String c "".

Fixpoint repr_chars (q : ascii) (s : string) : string :=
  match s with
  | EmptyString => EmptyString
  | String c s' => repr_char q c ++ repr_chars q s'
  end.

(** [repr(s)] for a string: double quotes when [s] has a single quote
    and no double quote, single quotes otherwise. *)
Definition str_repr (s : string) : string :=
  let q : ascii :=
    if contains "'" s && negb (contains (String (ascii_of_N 34) "") s)
    then ascii_of_N 34 else "'"%char in
  String q (repr_chars q s ++ String q "").

(** [repr(v)] *)
Fixpoint py_repr (v : pyval) : string :=
  match v with
  | PNone => "None"
  | PBool true => "True"
  | PBool false => "False"
  | PInt z => str_of_Z z
  | PFloat f => float_repr f
  | PStr s => str_repr s
  | PDict kvs =>
      "{" ++ join ", " (map (fun kv => str_repr (fst kv) ++ ": " ++ py_repr (snd kv)) kvs) ++ "}"
  | PList l => "[" ++ join ", " (map py_repr l) ++ "]"
  end.

(** [str(v)] *)
Definition py_str (v : pyval) : string :=
  match v with
  | PStr s => s
  | _ => py_repr v
  end.

(** [float(v)] *)
Definition py_float (v : pyval) : result pyfloat :=
  match v with
  | PNone => Raise TypeError
  | PBool b => Ok (float_of_Z (if b then 1 else 0))
  | PInt z => Ok (float_of_Z z)
  | PFloat f => Ok f
  | PStr s => float_of_string s
  | PDict _ | PList _ => Raise TypeError
  end.

(** [isinstance(v, (int, float))]; a [bool] is an [int]. *)
Definition is_number (v : pyval) : bool :=
  match v with
  | PBool _ | PInt _ | PFloat _ => true
  | _ => false
  end.

(** [isinstance(v, float)] *)
Definition is_float (v : pyval) : bool :=
  match v with PFloat _ => true | _ => false end.

(** [isinstance(v, str)] *)
Definition is_str (v : pyval) : bool :=
  match v with PStr _ => true | _ => false end.

(** [v == 0] for a number *)
Definition num_eq_zero (v : pyval) : bool :=
  match v with
  | PBool b => negb b
  | PInt z => z =? 0
  | PFloat f => feq_Z f 0
  | _ => false
  end.

(** [a or b] *)
Definition py_or (a b : pyval) : pyval := if truthy a then a else b.

(** [t[i]] on a tuple: [IndexError] out of range. *)
Definition index (t : list pyval) (i : nat) : result pyval :=
  match nth_error t i with
  | Some v => Ok v
  | None => Raise IndexError
  end.

(** [l.append(x)] *)
Definition list_append {A : Type} (l : list A) (x : A) : list A := (l ++ [x])%list.

(** [len(t)] *)
Definition len {A : Type} (t : list A) : Z := Z.of_nat (List.length t).

(** [d.get(k)] and [k in d] on the entries of a [dict] *)
Fixpoint lookup (k : string) (kvs : list (string * pyval)) : option pyval :=
  match kvs with
  | [] => None
  | (k', v) :: rest => if String.eqb k k' then Some v else lookup k rest
  end.

(** [d.get(k, default)] on a [dict] *)
Definition dict_get_or (d : pyval) (k : string) (default : pyval) : pyval :=
  match d with
  | PDict kvs => match lookup k kvs with Some v => v | None => default end
  | _ => default
  end.

Definition dict_get (d : pyval) (k : string) : pyval := dict_get_or d k PNone.

(** [record.get(key, default)]: only a [dict] has the method. *)
Definition get (record : pyval) (key : string) (default : pyval) : result pyval :=
  match record with
  | PDict _ => Ok (dict_get_or record key default)
  | _ => Raise AttributeError
  end.

(** The loop [for key in keys: if isinstance(obj, dict) and key in obj:
    obj = obj[key] else: return default]; [None] stands for the early
    return. *)
Fixpoint get_path (obj : pyval) (keys : list string) : option pyval :=
  match keys with
  | [] => Some obj
  | key :: rest =>
      match obj with
      | PDict kvs =>
          match lookup key kvs with
          | Some v => get_path v rest
          | None => None
          end
      | _ => None
      end
  end.

(** A [dict] display [{k1: e1, k2: e2, ...}] with distinct keys: the
    entries are evaluated in order and the first exception is the
    display's. *)
Fixpoint eval_entries (es : list (string * result pyval)) : result (list (string * pyval)) :=
  match es with
  | [] => Ok []
  | (k, r) :: rest =>
      match r with
      | Ok v =>
          match eval_entries rest with
          | Ok kvs => Ok ((k, v) :: kvs)
          | Raise e => Raise e
          end
      | Raise e => Raise e
      end
  end.

Definition dict_of (es : list (string * result pyval)) : result pyval :=
  match eval_entries es with
  | Ok kvs => Ok (PDict kvs)
  | Raise e => Raise e
  end.

(** The float [0.0] *)
Definition zero : pyfloat := FFin false 0 0.

(** Every character of [s] passes the test [P]. *)
Fixpoint all_chars (P : ascii -> bool) (s : string) : bool :=
  match s with
  | EmptyString => true
  | String c s' => P c && all_chars P s'
  end.

(** *** The regular expressions of the scripts *)

(** [\d{n}] at the start of [s]: the [n] digits and what follows. *)
Fixpoint take_digits (n : nat) (s : string) : option (string * string) :=
  match n with
  | O => Some ("", s)
  | S n' =>
      match s with
      | String c s' =>
          if is_digit c then
            match take_digits n' s' with
            | Some (d, r) => Some (String c d, r)
            | None => None
            end
          else None
      | EmptyString => None
      end
  end.

(** [\d{0,n}] at the start of [s], as many digits as there are. *)
Fixpoint take_digits_upto (n : nat) (s : string) : string * string :=
  match n with
  | O => ("", s)
  | S n' =>
      match s with
      | String c s' =>
          if is_digit c then
            let '(d, r) := take_digits_upto n' s' in (String c d, r)
          else ("", s)
      | EmptyString => ("", s)
      end
  end.

(** [re.search]: the match at the leftmost position where [here] matches. *)
Fixpoint search {A : Type} (here : string -> option A) (s : string) : option A :=
  match here s with
  | Some m => Some m
  | None =>
      match s with
      | String _ s' => search here s'
      | EmptyString => None
      end
  end.

(** [s[n:]] *)
Definition drop (n : nat) (s : string) : string :=
  substring n (String.length s - n) s.

(** A year range as the scripts write it: [n1] digits, a dash, [n2] digits. *)
Definition year_shaped (n1 n2 : nat) (s : string) : Prop :=
  exists y1 y2, s = y1 ++ "-" ++ y2
                /\ String.length y1 = n1 /\ all_chars is_digit y1 = true
                /\ String.length y2 = n2 /\ all_chars is_digit y2 = true.

(** *** Vocabulary of the properties *)

(** The characters [str] writes for an [int] or a [float]: digits, the
    signs, the point and the letters of [e], [inf] and [nan]. *)
Definition number_char (c : ascii) : bool :=
  is_digit c || str_in (String c "") ["-"; "+"; "."; "e"; "i"; "n"; "f"; "a"].

(** The characters of a decimal number as [float] reads it. *)
Definition decimal_char (c : ascii) : bool :=
  is_digit c || str_in (String c "") ["+"; "-"; "."; "_"; "e"; "E"].

(** [s] is [rest] after a run of characters of decimal numbers. *)
Definition consumed (s rest : string) : Prop :=
  exists pre, s = pre ++ rest /\ all_chars decimal_char pre = true.

(** [c] does not occur in [s]. *)
Fixpoint lacks (c : ascii) (s : string) : bool :=
  match s with
  | EmptyString => true
  | String d s' => negb (Ascii.eqb c d) && lacks c s'
  end.

(** The character [title] writes for [c] after a cased or uncased one. *)
Definition title_char (prev_cased : bool) (c : ascii) : ascii :=
  if prev_cased then lower_char c else upper_char c.

(** White space at the end of a string, read from the front. *)
Fixpoint last_space (s : string) : bool :=
  match s with
  | EmptyString => false
  | String c EmptyString => is_space c
  | String _ s' => last_space s'
  end.

(** [name = name.title() if name.isupper() else name], as the cleaners do. *)
Definition retitle (s : string) : string := if isupper s then title s else s.

End Py.

(* ====================================================================== *)
(** ** hashlib.md5 (RFC 1321) *)
(* ====================================================================== *)

Module MD5.

Definition w32 (x : Z) : Z := x mod 4294967296.

Definition rotl (x c : Z) : Z :=
  w32 (Z.lor (Z.shiftl x c) (Z.shiftr x (32 - c))).

Definition bnot (x : Z) : Z := Z.lxor x 4294967295.

(** The per-round shift amounts. *)
Definition shifts : list Z :=
  [ 7; 12; 17; 22; 7; 12; 17; 22; 7; 12; 17; 22; 7; 12; 17; 22;
    5; 9; 14; 20; 5; 9; 14; 20; 5; 9; 14; 20; 5; 9; 14; 20;
    4; 11; 16; 23; 4; 11; 16; 23; 4; 11; 16; 23; 4; 11; 16; 23;
    6; 10; 15; 21; 6; 10; 15; 21; 6; 10; 15; 21; 6; 10; 15; 21 ].

(** [K[i] = floor(2^32 * abs(sin(i + 1)))] *)
Definition K : list Z :=
  [ 3614090360; 3905402710; 606105819; 3250441966;
    4118548399; 1200080426; 2821735955; 4249261313;
    1770035416; 2336552879; 4294925233; 2304563134;
    1804603682; 4254626195; 2792965006; 1236535329;
    4129170786; 3225465664; 643717713; 3921069994;
    3593408605; 38016083; 3634488961; 3889429448;
    568446438; 3275163606; 4107603335; 1163531501;
    2850285829; 4243563512; 1735328473; 2368359562;
    4294588738; 2272392833; 1839030562; 4259657740;
    2763975236; 1272893353; 4139469664; 3200236656;
    681279174; 3936430074; 3572445317; 76029189;
    3654602809; 3873151461; 530742520; 3299628645;
    4096336452; 1126891415; 2878612391; 4237533241;
    1700485571; 2399980690; 4293915773; 2240044497;
    1873313359; 4264355552; 2734768916; 1309151649;
    4149444226; 3174756917; 718787259; 3951481745 ].

Record state : Type := mk_state { sa : Z; sb : Z; sc : Z; sd : Z }.

Definition init : state :=
  mk_state 1732584193 4023233417 2562383102 271733878.

(** The bytes of a string. *)
Fixpoint bytes_of (s : string) : list Z :=
  match s with
  | EmptyString => []
  | String c s' => Z.of_N (N_of_ascii c) :: bytes_of s'
  end.

(** [n] as [k] little-endian bytes *)
Fixpoint le_bytes (k : nat) (n : Z) : list Z :=
  match k with
  | O => []
  | S k' => n mod 256 :: le_bytes k' (n / 256)
  end.

(** The message padded to a multiple of 64 bytes: a [0x80] byte, zeros up
    to 56 modulo 64, then the bit length in 8 little-endian bytes. *)
Definition pad (msg : list Z) : list Z :=
  let l := Z.of_nat (length msg) in
  let zeros := Z.to_nat ((55 - l) mod 64) in
  msg ++ [128] ++ repeat 0 zeros ++ le_bytes 8 (8 * l).

(** Sixteen little-endian words from 64 bytes. *)
Fixpoint words (n : nat) (bs : list Z) : list Z :=
  match n with
  | O => []
  | S n' =>
      match bs with
      | b0 :: b1 :: b2 :: b3 :: rest =>
          (b0 + 256 * b1 + 65536 * b2 + 16777216 * b3) :: words n' rest
      | _ => []
      end
  end.

Definition round (M : list Z) (i : Z) (st : state) : state :=
  let '(mk_state A B C D) := st in
  let '(F, g) :=
    if i <? 16 then (Z.lor (Z.land B C) (Z.land (bnot B) D), i)
    else if i <? 32 then (Z.lor (Z.land D B) (Z.land (bnot D) C), (5 * i + 1) mod 16)
    else if i <? 48 then (Z.lxor B (Z.lxor C D), (3 * i + 5) mod 16)
    else (Z.lxor C (Z.lor B (bnot D)), (7 * i) mod 16) in
  let F' := w32 (F + A + nth (Z.to_nat i) K 0 + nth (Z.to_nat g) M 0) in
  mk_state D (w32 (B + rotl F' (nth (Z.to_nat i) shifts 0))) B C.

Fixpoint rounds (M : list Z) (n : nat) (i : Z) (st : state) : state :=
  match n with
  | O => st
  | S n' => rounds M n' (i + 1) (round M i st)
  end.

Definition block (st : state) (bs : list Z) : state :=
  let st' := rounds (words 16 bs) 64 0 st in
  mk_state (w32 (sa st + sa st')) (w32 (sb st + sb st'))
           (w32 (sc st + sc st')) (w32 (sd st + sd st')).

Fixpoint blocks (n : nat) (st : state) (bs : list Z) : state :=
  match n with
  | O => st
  | S n' => blocks n' (block st (firstn 64 bs)) (skipn 64 bs)
  end.

Definition digest (msg : list Z) : list Z :=
  let p := pad msg in
  let st := blocks (length p / 64) init p in
  le_bytes 4 (sa st) ++ le_bytes 4 (sb st) ++ le_bytes 4 (sc st) ++ le_bytes 4 (sd st).

Definition hex_digit (n : Z) : ascii :=
  if n <? 10 then ascii_of_N (Z.to_N (48 + n)) else ascii_of_N (Z.to_N (87 + n)).

Fixpoint hex (bs : list Z) : string :=
  match bs with
  | [] => EmptyString
  | b :: rest => String (hex_digit (b / 16)) (String (hex_digit (b mod 16)) (hex rest))
  end.

(** [hashlib.md5(s.encode()).hexdigest()] *)
Definition hexdigest (s : string) : string := hex (digest (bytes_of s)).

End MD5.

Module PyNotations.
Notation "x <- r ;; k" := (Py.bind r (fun x => k))
  (at level 61, r at next level, right associativity).
End PyNotations.

Import Py PyNotations.

(* ====================================================================== *)
(** ** scripts/state_report_etl.py *)
(* ====================================================================== *)

Module StateReport.

(** [\d{4}-\d{k}] at the start of [s] *)
Definition year_range_here (k : nat) (s : string) : option string :=
  match take_digits 4 s with
  | Some (y1, String "-" r) =>
      match take_digits k r with
      | Some (y2, _) => Some (y1 ++ "-" ++ y2)
      | None => None
      end
  | _ => None
  end.

(** [if len(year) == 7: year = year[:4] + "-20" + year[5:]] *)
Definition widen_year (year : string) : string :=
  if (String.length year =? 7)%nat
  then substring 0 4 year ++ "-20" ++ drop 5 year
  else year.

(** [extract_year_from_filename(filename)]: the two patterns in turn. *)
Definition extract_year_from_filename (filename : string) : string :=
  match search (year_range_here 4) filename with
  | Some year => widen_year year
  | None =>
      match search (year_range_here 2) filename with
      | Some year => widen_year year
      | None => "unknown"
      end
  end.

(** [safe_float(value, default=0.0)] *)
Definition safe_float (value : pyval) (default : pyfloat) : result pyfloat :=
  if is_none value || eq_str value ""
     || str_in (lower (py_str value)) ["none"; "nan"; ""]
  then Ok default
  else try_except_VT (py_float value) (Ok default).

(** [safe_str(value)] *)
Definition safe_str (value : pyval) : pyval :=
  if is_none value || eq_str value "" || String.eqb (lower (py_str value)) "none"
  then PNone
  else PStr (strip (py_str value)).

(** [safe_float(row[i]) if c else 0.0] *)
Definition float_if (c : bool) (row : list pyval) (i : nat) : result pyval :=
  if c then
    v <- index row i ;;
    f <- safe_float v zero ;;
    ret (PFloat f)
  else ret (PFloat zero).

(** [safe_str(row[i]) if c else None] *)
Definition str_if (c : bool) (row : list pyval) (i : nat) : result pyval :=
  if c then
    v <- index row i ;;
    ret (safe_str v)
  else ret PNone.

(** [safe_float(row[i]) if len(row) > i else 0.0] *)
Definition float_at (row : list pyval) (i : nat) : result pyval :=
  float_if (Z.of_nat i <? len row) row i.

(** [safe_str(row[i]) if len(row) > i else None] *)
Definition str_at (row : list pyval) (i : nat) : result pyval :=
  str_if (Z.of_nat i <? len row) row i.

(** [get_cnc_pq(row, start)] *)
Definition get_cnc_pq (row : list pyval) (start : nat) : result pyval :=
  dict_of
    [ ("contaminated", float_if (Z.of_nat start <? len row) row start);
      ("non_contaminated", float_if (Z.of_nat start + 1 <? len row) row (start + 1));
      ("poor_quality", float_if (Z.of_nat start + 2 <? len row) row (start + 2));
      ("total", float_if (Z.of_nat start + 3 <? len row) row (start + 3)) ].

(** [get_fresh_saline(row, start)] *)
Definition get_fresh_saline (row : list pyval) (start : nat) : result pyval :=
  dict_of
    [ ("fresh", float_if (Z.of_nat start <? len row) row start);
      ("saline", float_if (Z.of_nat start + 1 <? len row) row (start + 1)) ].

(** The four cells written out by hand for the sub-totals. *)
Definition cnc_pq_at (row : list pyval) (i : nat) : result pyval :=
  dict_of
    [ ("contaminated", float_at row i);
      ("non_contaminated", float_at row (i + 1));
      ("poor_quality", float_at row (i + 2));
      ("total", float_at row (i + 3)) ].

(** The [record = {...}] display of [parse_row_to_record], for the
    serial number [serial] already read. *)
Definition record_entries (row : list pyval) (state_name : string) (year : string)
    (serial : pyfloat) : list (string * result pyval) :=
  [ ("serial_no",
       if float_truthy serial
       then n <- int_of_float serial ;; ret (PInt n)
       else ret PNone);
    ("state", v <- index row 1 ;; ret (py_or (safe_str v) (PStr state_name)));
    ("district", v <- index row 2 ;; ret (safe_str v));
    ("assessment_unit", v <- index row 3 ;; ret (safe_str v));
    ("watershed_district", v <- index row 4 ;; ret (safe_str v));
    ("year", ret (PStr year));
    ("rainfall_mm", get_cnc_pq row 5);
    ("geographical_area_ha",
       dict_of
         [ ("recharge_worthy", get_cnc_pq row 9);
           ("hilly_area", float_at row 13);
           ("total", float_at row 14) ]);
    ("ground_water_recharge_ham",
       dict_of
         [ ("rainfall_recharge", get_cnc_pq row 15);
           ("canals", get_cnc_pq row 19);
           ("surface_water_irrigation", get_cnc_pq row 23);
           ("ground_water_irrigation", get_cnc_pq row 27);
           ("tanks_and_ponds", get_cnc_pq row 31);
           ("water_conservation_structure", get_cnc_pq row 35);
           ("pipelines", get_cnc_pq row 39);
           ("sewages_flash_flood_channels", get_cnc_pq row 43);
           ("subtotal", cnc_pq_at row 47) ]);
    ("inflows_outflows_ham",
       dict_of
         [ ("base_flow", get_cnc_pq row 51);
           ("stream_recharges", get_cnc_pq row 55);
           ("lateral_flows", get_cnc_pq row 59);
           ("vertical_flows", get_cnc_pq row 63);
           ("evaporation", get_cnc_pq row 67);
           ("transpiration", get_cnc_pq row 71);
           ("evapotranspiration", get_cnc_pq row 75);
           ("subtotal", cnc_pq_at row 79) ]);
    ("annual_gw_recharge_ham", get_cnc_pq row 83);
    ("environmental_flows_ham", get_cnc_pq row 87);
    ("annual_extractable_gw_resource_ham", get_cnc_pq row 91);
    ("gw_extraction_ham",
       dict_of
         [ ("domestic", get_cnc_pq row 95);
           ("industrial", get_cnc_pq row 99);
           ("irrigation", get_cnc_pq row 103);
           ("total", cnc_pq_at row 107) ]);
    ("stage_of_extraction_percent", get_cnc_pq row 111);
    ("categorization",
       dict_of
         [ ("contaminated", str_at row 115);
           ("non_contaminated", str_at row 116);
           ("poor_quality", str_at row 117);
           ("overall", str_at row 118) ]);
    ("gw_trends",
       dict_of
         [ ("pre_monsoon",
              dict_of [ ("contaminated", str_at row 119);
                        ("non_contaminated", str_at row 120) ]);
           ("post_monsoon",
              dict_of [ ("contaminated", str_at row 121);
                        ("non_contaminated", str_at row 122) ]) ]);
    ("allocation_domestic_2025_ham", get_cnc_pq row 123);
    ("net_annual_gw_availability_ham", get_cnc_pq row 127);
    ("quality_tagging",
       dict_of
         [ ("major_parameter",
              dict_of [ ("contaminated", str_at row 131);
                        ("non_contaminated", str_at row 132);
                        ("poor_quality", str_at row 133) ]);
           ("other_parameters",
              dict_of [ ("contaminated", str_at row 134);
                        ("non_contaminated", str_at row 135);
                        ("poor_quality", str_at row 136) ]) ]);
    ("additional_potential_resources_ham",
       dict_of
         [ ("waterlogged_shallow_water_table", float_at row 137);
           ("flood_prone", float_at row 138);
           ("spring_discharge", float_at row 139) ]);
    ("coastal_areas", get_cnc_pq row 140);
    ("in_storage_unconfined_gw_ham", get_fresh_saline row 144);
    ("total_gw_availability_unconfined_ham", get_fresh_saline row 146);
    ("dynamic_confined_gw_ham", get_fresh_saline row 148);
    ("in_storage_confined_gw_ham", get_fresh_saline row 150);
    ("total_confined_gw_ham", get_fresh_saline row 152);
    ("dynamic_semi_confined_gw_ham", get_fresh_saline row 154);
    ("in_storage_semi_confined_gw_ham", get_fresh_saline row 156);
    ("total_semi_confined_gw_ham", get_fresh_saline row 158);
    ("total_gw_availability_ham", get_fresh_saline row 160) ].

(** [parse_row_to_record(row, state_name, year)]: [Ok None] is the
    row-level [None], [Ok (Some r)] a record, [Raise e] an exception
    that leaves the function. *)
Definition parse_row_to_record (row : list pyval) (state_name year : string)
  : result (option pyval) :=
  if match row with [] => true | _ => false end || (len row <? 10) then Ok None
  else
    r0 <- index row 0 ;;
    if negb (truthy r0) then Ok None
    else
      match py_float r0 with
      | Raise ValueError | Raise TypeError => Ok None
      | Raise e => Raise e
      | Ok serial =>
          if eq_str (safe_str r0) "Total" then Ok None
          else
            record <- dict_of (record_entries row state_name year serial) ;;
            ret (Some record)
      end.

(** The loop of [extract_state_report] over the rows read from row 12
    on; [records] is the list appended to.  A parsed record is kept when
    it has a district. *)
Fixpoint extract_loop (rows : list (list pyval)) (state year : string)
    (records : list pyval) : result (list pyval) :=
  match rows with
  | [] => Ok records
  | row :: rest =>
      record <- parse_row_to_record row state year ;;
      match record with
      | Some r =>
          if truthy r && truthy (dict_get r "district")
          then extract_loop rest state year (list_append records r)
          else extract_loop rest state year records
      | None => extract_loop rest state year records
      end
  end.

(** [extract_state_report(filepath)], for the state and the year read
    from the file name and the rows of the active sheet from row 12 on. *)
Definition extract_state_report (state year : string) (rows : list (list pyval))
  : result (list pyval) :=
  extract_loop rows state year [].

(** The records [extract_state_report] keeps of the parsed rows. *)
Definition kept_records (parsed : list (option pyval)) : list pyval :=
  flat_map (fun p => match p with
                     | Some r => if truthy r && truthy (dict_get r "district")
                                 then [r] else []
                     | None => []
                     end) parsed.

(** A record has a district when that field is a non-empty string. *)
Definition has_district (r : pyval) : Prop :=
  exists s, dict_get r "district" = PStr s /\ s <> "".

End StateReport.

(* ====================================================================== *)
(** ** scripts/central_annexure_attribute_etl.py *)
(* ====================================================================== *)

Module Central.

(** The tokens [safe_float] reads as a missing value. *)
Definition missing_tokens : list string := [""; "-"; "NA"; "N/A"; "NR"; "--"].

(** [safe_float(value, default=0.0)] *)
Definition safe_float (value : pyval) (default : pyfloat) : result pyfloat :=
  if is_none value then Ok default
  else if is_number value then py_float value
  else
    try_except_VT
      (let cleaned := remove_char "," (strip (py_str value)) in
       if str_in cleaned missing_tokens then Ok default
       else float_of_string cleaned)
      (Ok default).

(** [safe_str(value, default="")] *)
Definition safe_str (value : pyval) (default : string) : string :=
  if is_none value then default else strip (py_str value).

(** [(\d{4})[-_]?(\d{2,4})] at the start of [s]: the two groups.  The
    separator is taken when it is there and given back when no two
    digits follow it. *)
Definition year_pair_here (s : string) : option (string * string) :=
  match take_digits 4 s with
  | Some (year1, rest) =>
      let digits r :=
        let '(year2, _) := take_digits_upto 4 r in
        if (2 <=? String.length year2)%nat then Some (year1, year2) else None in
      match rest with
      | String c r =>
          if Ascii.eqb c "-" || Ascii.eqb c "_" then
            match digits r with
            | Some m => Some m
            | None => digits rest
            end
          else digits rest
      | EmptyString => digits rest
      end
  | None => None
  end.

(** [extract_year_from_filename(filename)] *)
Definition extract_year_from_filename (filename : string) : string :=
  match search year_pair_here filename with
  | Some (year1, year2) =>
      year1 ++ "-" ++ (if (String.length year2 =? 2)%nat then "20" ++ year2 else year2)
  | None => "unknown"
  end.

(** A worksheet: its rows, each a list of cell values.  [ws.max_row] is
    the number of rows and a cell off the sheet reads as [None]. *)
Definition sheet : Type := list (list pyval).

Definition max_row (ws : sheet) : nat := length ws.

(** [ws.cell(row=row, column=column).value], both counted from 1 *)
Definition cell (ws : sheet) (row column : nat) : pyval :=
  nth (column - 1) (nth (row - 1) ws []) PNone.

(** [safe_float(ws.cell(row=row_idx, column=c).value)] as a JSON leaf *)
Definition float_cell (ws : sheet) (row_idx c : nat) : result pyval :=
  f <- safe_float (cell ws row_idx c) zero ;; ret (PFloat f).

(** [sentinel(cell_a)]: [cell_a and "DYNAMIC GROUND WATER" in str(cell_a).upper()] *)
Definition is_sentinel (cell_a : pyval) : bool :=
  truthy cell_a && contains "DYNAMIC GROUND WATER" (upper (py_str cell_a)).

(** [current_state or "Unknown"] *)
Definition state_or_unknown (current_state : pyval) : pyval :=
  py_or current_state (PStr "Unknown").

(** The serial-number test shared by the scanners:
    [[
    try:
        serial = float(cell_a) if cell_a else None
        if serial is None or serial < 1:
            continue
    except (ValueError, TypeError):
        continue
    ]]
    [Ok true] stands for [continue]. *)
Definition serial_skips (cell_a : pyval) : result bool :=
  try_except_VT
    (if truthy cell_a then
       serial <- py_float cell_a ;;
       ret (flt_Z serial 1)
     else ret true)
    (Ok true).

(** What one turn of a scanning loop does: the section key after the
    row and the record appended, if any. *)
Definition step : Type := pyval * option pyval.

(** *** Annexure II *)

Definition annexure2_header_cells : list string :=
  [""; "S.NO"; "S.No"; "1"; "Total(Ham)"; "Total(Bcm)"].

Definition annexure2_district_skips : list string :=
  [""; "Name of District"; "Total"; "Total(Ham)"; "Total(Bcm)"].

(** The [record = {...}] display of [extract_annexure2] *)
Definition annexure2_record (ws : sheet) (year : string) (row_idx : nat)
    (current_state district : pyval) : result pyval :=
  dict_of
    [ ("serial_no", float_cell ws row_idx 1);
      ("state", ret (state_or_unknown current_state));
      ("district", ret (PStr (safe_str district "")));
      ("year", ret (PStr year));
      ("ground_water_recharge_ham",
         dict_of
           [ ("monsoon_season",
                dict_of [ ("from_rainfall", float_cell ws row_idx 3);
                          ("from_other_sources", float_cell ws row_idx 4) ]);
             ("non_monsoon_season",
                dict_of [ ("from_rainfall", float_cell ws row_idx 5);
                          ("from_other_sources", float_cell ws row_idx 6) ]);
             ("total_annual", float_cell ws row_idx 7) ]);
      ("total_natural_discharges_ham", float_cell ws row_idx 8);
      ("annual_extractable_resource_ham", float_cell ws row_idx 9);
      ("current_annual_extraction_ham",
         dict_of
           [ ("irrigation", float_cell ws row_idx 10);
             ("industrial", float_cell ws row_idx 11);
             ("domestic", float_cell ws row_idx 12);
             ("total", float_cell ws row_idx 13) ]);
      ("annual_gw_allocation_domestic_ham", float_cell ws row_idx 14);
      ("net_gw_availability_ham", float_cell ws row_idx 15);
      ("stage_of_extraction_percent", float_cell ws row_idx 16) ].

(** The body of the loop of [extract_annexure2] at row [row_idx]. *)
Definition annexure2_row (ws : sheet) (year : string) (row_idx : nat)
    (current_state : pyval) : result step :=
  let cell_a := cell ws row_idx 1 in
  if is_sentinel cell_a then
    let next_row_val := cell ws (row_idx + 1) 1 in
    if truthy next_row_val
    then ret (PStr (safe_str next_row_val ""), None)
    else ret (current_state, None)
  else
    skip <- (if negb (truthy cell_a)
                || str_in (strip (py_str cell_a)) annexure2_header_cells
             then serial_skips cell_a
             else ret false) ;;
    if skip then ret (current_state, None)
    else
      let district := cell ws row_idx 2 in
      if negb (truthy district)
         || str_in (strip (py_str district)) annexure2_district_skips
      then ret (current_state, None)
      else
        record <- annexure2_record ws year row_idx current_state district ;;
        ret (current_state, Some record).

(** *** Annexure 3B *)

Definition annexure3b_district_skips : list string :=
  [""; "Name of District"; "Total"; "No"; "No."].

Definition count_percent (ws : sheet) (row_idx c : nat) : result pyval :=
  dict_of [ ("count", float_cell ws row_idx c);
            ("percent", float_cell ws row_idx (c + 1)) ].

(** The [record = {...}] display of sheet 3B *)
Definition annexure3b_record (ws : sheet) (row_idx : nat)
    (current_state cell_a district : pyval) : result pyval :=
  dict_of
    [ ("serial_no", f <- safe_float cell_a zero ;; ret (PFloat f));
      ("state", ret (state_or_unknown current_state));
      ("district", ret (PStr (safe_str district "")));
      ("total_assessed_units", float_cell ws row_idx 3);
      ("safe", count_percent ws row_idx 4);
      ("semi_critical", count_percent ws row_idx 6);
      ("critical", count_percent ws row_idx 8);
      ("over_exploited", count_percent ws row_idx 10);
      ("saline", count_percent ws row_idx 12) ].

(** The body of the loop over sheet [Annexure-3B] at row [row_idx]. *)
Definition annexure3b_row (ws : sheet) (row_idx : nat) (current_state : pyval)
  : result step :=
  let cell_a := cell ws row_idx 1 in
  if is_sentinel cell_a then
    let next_val := cell ws (row_idx + 1) 1 in
    if truthy next_val && negb (str_in (strip (py_str next_val)) ["S.No"; "S.NO"])
    then ret (PStr (safe_str next_val ""), None)
    else ret (current_state, None)
  else
    let district := cell ws row_idx 2 in
    if negb (truthy district)
       || str_in (strip (py_str district)) annexure3b_district_skips
    then ret (current_state, None)
    else
      skip <- serial_skips cell_a ;;
      if skip then ret (current_state, None)
      else
        record <- annexure3b_record ws row_idx current_state cell_a district ;;
        ret (current_state, Some record).

(** *** The scanning loop *)

(** [for row_idx in range(first, first + n)], threading the section key
    and the list of records. *)
Fixpoint scan (body : nat -> pyval -> result step) (n first : nat)
    (current_state : pyval) (records : list pyval) : result (pyval * list pyval) :=
  match n with
  | O => Ok (current_state, records)
  | S n' =>
      st <- body first current_state ;;
      let '(current_state', emitted) := st in
      scan body n' (S first) current_state'
           (match emitted with
            | Some r => list_append records r
            | None => records
            end)
  end.

(** [extract_annexure2(filepath)] on the sheet [Annexure II]: rows 1 to
    [max_row], no section key to start with. *)
Definition extract_annexure2 (ws : sheet) (year : string) : result (list pyval) :=
  out <- scan (annexure2_row ws year) (max_row ws) 1 PNone [] ;;
  ret (snd out).

(** The part of [extract_annexure3(filepath)] for the sheet [Annexure-3B]. *)
Definition extract_annexure3b (ws : sheet) : result (list pyval) :=
  out <- scan (annexure3b_row ws) (max_row ws) 1 PNone [] ;;
  ret (snd out).

(** *** Annexure 4A and 4B *)

Definition annexure4_state_skips : list string := ["S.NO"; "S.No"; "ABSTRACT"].

Definition annexure4_district_skips : list string :=
  [""; "Name of District"; "ABSTRACT"; "Total No. of Assessed Units"].

(** The body of the loops of [extract_annexure4] over the sheets
    [Annexure 4A] and [Annexure 4B] at row [row_idx].  The two loops are
    the same text but for the marker of a section header and the keys of
    the unit names read from columns 4, 6 and 8. *)
Definition annexure4_row (marker key4 key6 key8 : string) (ws : sheet) (row_idx : nat)
    (current_state : pyval) : result step :=
  let cell_a := cell ws row_idx 1 in
  if truthy cell_a && contains marker (upper (py_str cell_a)) then
    let next_val := cell ws (row_idx + 1) 1 in
    if truthy next_val && negb (str_in (strip (py_str next_val)) annexure4_state_skips)
    then ret (PStr (safe_str next_val ""), None)
    else ret (current_state, None)
  else
    let district := cell ws row_idx 2 in
    if negb (truthy district)
       || str_in (strip (py_str district)) annexure4_district_skips
    then ret (current_state, None)
    else
      skip <- serial_skips cell_a ;;
      if skip then ret (current_state, None)
      else
        let name4 := PStr (safe_str (cell ws row_idx 4) "") in
        let name6 := PStr (safe_str (cell ws row_idx 6) "") in
        let name8 := PStr (safe_str (cell ws row_idx 8) "") in
        if truthy (py_or (py_or name4 name6) name8) then
          ret (current_state,
               Some (PDict [ ("state", state_or_unknown current_state);
                             ("district", PStr (safe_str district ""));
                             (key4, name4);
                             (key6, name6);
                             (key8, name8) ]))
        else ret (current_state, None).

(** The part of [extract_annexure4(filepath)] for the sheet [Annexure 4A]:
    rows 2 to [max_row]. *)
Definition extract_annexure4a (ws : sheet) : result (list pyval) :=
  out <- scan (annexure4_row "CATEGORISATION OF ASSESSMENT" "semi_critical_unit"
                             "critical_unit" "over_exploited_unit" ws)
              (max_row ws - 1) 2 PNone [] ;;
  ret (snd out).

(** The part of [extract_annexure4(filepath)] for the sheet [Annexure 4B]. *)
Definition extract_annexure4b (ws : sheet) : result (list pyval) :=
  out <- scan (annexure4_row "QUALITY PROBLEMS" "fluoride_affected_unit"
                             "arsenic_affected_unit" "salinity_affected_unit" ws)
              (max_row ws - 1) 2 PNone [] ;;
  ret (snd out).

(** A record of sheet 4A or 4B as the loops build it: five texts under
    the keys [state], [district] and the three keys of the sheet. *)
Definition unit_record (key4 key6 key8 : string) (r : pyval) : Prop :=
  exists state district name4 name6 name8,
    r = PDict [ ("state", PStr state); ("district", PStr district);
                (key4, PStr name4); (key6, PStr name6); (key8, PStr name8) ]
    /\ state <> "" /\ district <> "" /\ strip district = district
    /\ str_in district annexure4_district_skips = false
    /\ (name4 <> "" \/ name6 <> "" \/ name8 <> "").

(** *** Attribute report: the sheets Summary and Table *)











(** A loop body keeps the section: off a sentinel row the key is left
    alone and a record yielded carries it. *)
Definition keeps_section (ws : sheet) (body : nat -> pyval -> result step) : Prop :=
  forall row_idx current_state key emitted,
    is_sentinel (cell ws row_idx 1) = false ->
    body row_idx current_state = Ok (key, emitted) ->
    key = current_state
    /\ forall r, emitted = Some r ->
                 dict_get r "state" = py_or current_state (PStr "Unknown").

End Central.

(* ====================================================================== *)
(** ** scripts/semantic_chunker.py *)
(* ====================================================================== *)

Module Chunker.

(** [generate_id] over the tuple of its parts *)
Definition normalize_part (p : pyval) : string :=
  if is_none p || eq_str p "" then "_NULL_" else py_str p.

Definition id_content (parts : list pyval) : string :=
  join "|" (map normalize_part parts).

Definition generate_id (parts : list pyval) : string :=
  substring 0 16 (MD5.hexdigest (id_content parts)).

Definition state_replacements : list (string * string) :=
  [ ("Andman Nicobar", "Andaman and Nicobar Islands");
    ("Andaman And Nicobar Islands", "Andaman and Nicobar Islands");
    ("Jammu And Kashmir", "Jammu and Kashmir");
    ("Jammu Kashmir", "Jammu and Kashmir");
    ("Dadra And Nagar Haveli", "Dadra and Nagar Haveli");
    ("Daman And Diu", "Daman and Diu");
    ("Damandiu", "Daman and Diu");
    ("Lakshdweep", "Lakshadweep");
    ("Kerela", "Kerala");
    ("Telengana", "Telangana");
    ("Tamilnadu", "Tamil Nadu");
    ("Arunachal", "Arunachal Pradesh") ].

(** [for old, new in replacements.items(): if name.lower() == old.lower(): return new] *)
Fixpoint replace_name (name : string) (rs : list (string * string)) : option string :=
  match rs with
  | [] => None
  | (old, new) :: rest =>
      if String.eqb (lower name) (lower old) then Some new else replace_name name rest
  end.

(** [clean_name(name, name_type)] *)
Definition clean_name (name : pyval) (name_type : string) : pyval :=
  if negb (truthy name) then PNone
  else
    let name := strip (py_str name) in
    if String.eqb name "" || str_in (lower name) ["null"; "none"; ""] then PNone
    else
      let name := if isupper name then title name else name in
      if String.eqb name_type "state" then
        match replace_name name state_replacements with
        | Some new => PStr new
        | None => PStr name
        end
      else PStr name.

(** [format_value(value)] *)
Definition format_value (value : pyval) : result string :=
  match value with
  | PNone => Ok "N/A"
  | PFloat f =>
      if fge_Z (fabs f) 1000000 then Ok (format_2f (fdiv_pow10 f 6) ++ "M")
      else if fge_Z (fabs f) 1000 then Ok (format_2f (fdiv_pow10 f 3) ++ "K")
      else
        n <- int_of_float f ;;
        if feq_Z f n then Ok (str_of_Z n) else Ok (format_2f f)
  | _ => Ok (py_str value)
  end.

(** [get_nested(obj, *keys)] with the default [None] *)
Definition get_nested (obj : pyval) (keys : list string) : pyval :=
  match get_path obj keys with
  | Some v => v
  | None => PNone
  end.

(** [build_location_string(state, district, block)] *)
Definition build_location_string (state district block : pyval) : pyval :=
  if truthy block && truthy district then
    PStr (py_str block ++ " block in " ++ py_str district ++ " district, " ++ py_str state)
  else if truthy district then
    PStr (py_str district ++ " district, " ++ py_str state)
  else state.

(** [v > 0] *)
Definition gt_zero (v : pyval) : result bool :=
  match v with
  | PBool b => Ok b
  | PInt z => Ok (0 <? z)
  | PFloat f => Ok (fgt_Z f 0)
  | _ => Raise TypeError
  end.

(** [v and v > 0] as a condition *)
Definition positive (v : pyval) : result bool :=
  if truthy v then gt_zero v else Ok false.

(** [s.upper()] on a value: only a [str] has the method. *)
Definition upper_of (v : pyval) : result string :=
  match v with
  | PStr s => Ok (upper s)
  | _ => Raise AttributeError
  end.

(** [if c: l.append(item)] *)
Definition append_if (c : bool) (item : result string) (l : list string)
  : result (list string) :=
  if c then (s <- item ;; ret (list_append l s)) else ret l.

(** [f"{label}{format_value(v)}{suffix}"] *)
Definition labelled (label : string) (v : pyval) (suffix : string) : result string :=
  s <- format_value v ;; ret (label ++ s ++ suffix).

(** [if info: text_parts.append(" | ".join(info) + ".")] *)
Definition append_info (info text_parts : list string) : list string :=
  match info with
  | [] => text_parts
  | _ => list_append text_parts (join " | " info ++ ".")
  end.

(** [if c: metadata[k] = v] *)
Definition set_if (c : bool) (k : string) (v : pyval)
    (metadata : list (string * pyval)) : list (string * pyval) :=
  if c then list_append metadata (k, v) else metadata.

(** The categorization of a state-report record. *)
Definition categorization_of (cat_obj : pyval) : pyval :=
  match cat_obj with
  | PDict _ => py_or (dict_get cat_obj "overall") (dict_get cat_obj "non_contaminated")
  | PStr _ => cat_obj
  | _ => PNone
  end.

(** [build_state_report_chunk(record, state, year, source, row_index)] *)
Definition build_state_report_chunk (record state year : pyval) (source : string)
    (row_index : Z) : result (option pyval) :=
  d <- get record "district" PNone ;;
  let district := clean_name d "district" in
  a <- get record "assessment_unit" PNone ;;
  let block := clean_name a "block" in
  watershed <- get record "watershed_district" (PStr "") ;;
  serial_no <- get record "serial_no" (PInt row_index) ;;
  if negb (truthy block) then Ok None
  else
    cat_obj <- get record "categorization" (PDict []) ;;
    let categorization := categorization_of cat_obj in
    let rainfall_total := get_nested record ["rainfall_mm"; "total"] in
    let geo_area_total := get_nested record ["geographical_area_ha"; "total"] in
    let recharge_worthy :=
      get_nested record ["geographical_area_ha"; "recharge_worthy"; "total"] in
    let gw_recharge_rainfall :=
      get_nested record ["ground_water_recharge_ham"; "rainfall_recharge"; "total"] in
    let annual_recharge := get_nested record ["annual_gw_recharge_ham"; "total"] in
    let extractable :=
      get_nested record ["annual_extractable_gw_resource_ham"; "total"] in
    let extraction_irrigation :=
      get_nested record ["gw_extraction_ham"; "irrigation"; "total"] in
    let extraction_domestic :=
      get_nested record ["gw_extraction_ham"; "domestic"; "total"] in
    let extraction_industrial :=
      get_nested record ["gw_extraction_ham"; "industrial"; "total"] in
    let extraction_total := get_nested record ["gw_extraction_ham"; "total"; "total"] in
    let stage_of_extraction :=
      get_nested record ["stage_of_extraction_percent"; "total"] in
    let net_availability :=
      get_nested record ["net_annual_gw_availability_ham"; "total"] in
    let trend_pre := get_nested record ["gw_trends"; "pre_monsoon"; "non_contaminated"] in
    let trend_post :=
      get_nested record ["gw_trends"; "post_monsoon"; "non_contaminated"] in
    let storage_fresh := get_nested record ["in_storage_unconfined_gw_ham"; "fresh"] in
    let location := build_location_string state district block in
    let text_parts := ["**" ++ py_str location ++ " (" ++ py_str year ++ ")**"] in
    let text_parts :=
      if truthy watershed
      then list_append text_parts ("Watershed: " ++ py_str watershed ++ ".")
      else text_parts in
    (* Rainfall & Area *)
    area_info <- append_if (truthy rainfall_total)
                   (labelled "Annual rainfall: " rainfall_total " mm") [] ;;
    area_info <- append_if (truthy geo_area_total)
                   (labelled "Total area: " geo_area_total " ha") area_info ;;
    area_info <- append_if (truthy recharge_worthy)
                   (labelled "Recharge-worthy area: " recharge_worthy " ha") area_info ;;
    let text_parts := append_info area_info text_parts in
    (* Groundwater Recharge *)
    recharge_info <- append_if (truthy annual_recharge)
                       (labelled "Annual groundwater recharge: " annual_recharge " ham") [] ;;
    recharge_info <- append_if (truthy gw_recharge_rainfall)
                       (labelled "from rainfall: " gw_recharge_rainfall " ham")
                       recharge_info ;;
    let text_parts := append_info recharge_info text_parts in
    (* Resources & Extraction *)
    resource_info <- append_if (truthy extractable)
                       (labelled "Extractable resource: " extractable " ham") [] ;;
    resource_info <-
      (if truthy extraction_total then
         ext_details <- labelled "Total extraction: " extraction_total " ham" ;;
         ext_breakdown <- append_if (truthy extraction_irrigation)
                            (labelled "irrigation " extraction_irrigation "") [] ;;
         ext_breakdown <- append_if (truthy extraction_domestic)
                            (labelled "domestic " extraction_domestic "") ext_breakdown ;;
         industrial <- positive extraction_industrial ;;
         ext_breakdown <- append_if industrial
                            (labelled "industrial " extraction_industrial "")
                            ext_breakdown ;;
         let ext_details :=
           match ext_breakdown with
           | [] => ext_details
           | _ => ext_details ++ " (" ++ join ", " ext_breakdown ++ ")"
           end in
         ret (list_append resource_info ext_details)
       else ret resource_info) ;;
    let text_parts := append_info resource_info text_parts in
    (* Status *)
    status_info <- append_if (negb (is_none stage_of_extraction))
                     (labelled "Stage of extraction: " stage_of_extraction "%") [] ;;
    status_info <- append_if (truthy net_availability)
                     (labelled "Net availability: " net_availability " ham")
                     status_info ;;
    status_info <- append_if (truthy categorization)
                     (u <- upper_of categorization ;; ret ("Status: **" ++ u ++ "**"))
                     status_info ;;
    let text_parts := append_info status_info text_parts in
    (* Trends *)
    let text_parts :=
      if truthy trend_pre || truthy trend_post then
        let trend_info := "Groundwater trend:" in
        let trend_info :=
          if truthy trend_pre
          then trend_info ++ " Pre-monsoon: " ++ py_str trend_pre else trend_info in
        let trend_info :=
          if truthy trend_post
          then trend_info ++ " | Post-monsoon: " ++ py_str trend_post else trend_info in
        list_append text_parts (trend_info ++ ".")
      else text_parts in
    (* Storage *)
    stored <- positive storage_fresh ;;
    text_parts <- append_if stored
                    (labelled "Fresh groundwater in storage: " storage_fresh " ham.")
                    text_parts ;;
    (* Metadata *)
    let metadata := set_if (truthy rainfall_total) "rainfall_mm" rainfall_total [] in
    let metadata :=
      set_if (truthy annual_recharge) "annual_recharge_ham" annual_recharge metadata in
    let metadata :=
      set_if (truthy extractable) "extractable_resource_ham" extractable metadata in
    let metadata :=
      set_if (truthy extraction_total) "extraction_total_ham" extraction_total metadata in
    let metadata :=
      set_if (negb (is_none stage_of_extraction)) "stage_of_extraction_percent"
             stage_of_extraction metadata in
    let metadata :=
      set_if (truthy net_availability) "net_availability_ham" net_availability metadata in
    let metadata :=
      set_if (truthy categorization) "categorization" categorization metadata in
    ret (Some (PDict
      [ ("id", PStr (generate_id
                       [state; district; block; year; PStr "state_report"; serial_no]));
        ("state", state);
        ("district", district);
        ("block", block);
        ("year", year);
        ("source_type", PStr "state_report");
        ("source", PStr source);
        ("categorization", categorization);
        ("text", PStr (join " " text_parts));
        ("metadata", PDict metadata);
        ("watershed", if truthy watershed then watershed else PNone) ])).

End Chunker.

(* ====================================================================== *)
(** ** scripts/unified_dataset_generator_optimized.py *)
(* ====================================================================== *)

Module Unified.

(** [UNIT_NAMES.get(unit, unit)] *)
Definition unit_name_of (unit : string) : string :=
  if String.eqb unit "ham" then "hectare meters"
  else if String.eqb unit "bcm" then "billion cubic meters"
  else if String.eqb unit "mm" then "millimeters"
  else if String.eqb unit "ha" then "hectares"
  else if String.eqb unit "sq_km" then "square kilometers"
  else if String.eqb unit "percent" then "percent"
  else if String.eqb unit "count" then "units"
  else if String.eqb unit "" then ""
  else unit.

(** [generate_id(state, district, block, year, metric)] *)
Definition id_content (state district block year : pyval) (metric : string) : string :=
  py_str state ++ "|" ++ py_str district ++ "|" ++ py_str block ++ "|"
    ++ py_str year ++ "|" ++ metric.

Definition generate_id (state district block year : pyval) (metric : string) : string :=
  substring 0 12 (MD5.hexdigest (id_content state district block year metric)).

(** [clean_state_name(state)] *)
Definition clean_state_name (state : pyval) : pyval :=
  if negb (truthy state) then state
  else
    let state := strip (py_str state) in
    let state := if isupper state then title state else state in
    match Chunker.replace_name state Chunker.state_replacements with
    | Some new => PStr new
    | None => PStr state
    end.

(** [clean_district_name(district)] and [clean_block_name(block)] *)
Definition clean_district_name (district : pyval) : pyval :=
  if negb (truthy district) then PNone
  else
    let district := strip (py_str district) in
    if String.eqb district "" || String.eqb (lower district) "null" then PNone
    else PStr (if isupper district then title district else district).

Definition clean_block_name (block : pyval) : pyval :=
  if negb (truthy block) then PNone
  else
    let block := strip (py_str block) in
    if String.eqb block "" || String.eqb (lower block) "null" then PNone
    else PStr (if isupper block then title block else block).


(** [format_value(value)] *)
Definition format_value (value : pyval) : result string :=
  match value with
  | PNone => Ok "N/A"
  | PFloat f =>
      n <- int_of_float f ;;
      if feq_Z f n then Ok (str_of_Z n) else Ok (format_2f f)
  | _ => Ok (py_str value)
  end.

(** [generate_text(state, district, block, year, metric_desc, value, unit)] *)
Definition generate_text (state district block year : pyval) (metric_desc : string)
    (value : pyval) (unit : string) : result string :=
  let location :=
    if truthy block && truthy district then
      py_str block ++ " block of " ++ py_str district ++ " district, " ++ py_str state
    else if truthy district then
      py_str district ++ " district, " ++ py_str state
    else py_str state in
  value_str <- format_value value ;;
  let unit_name := unit_name_of unit in
  let is_text :=
    match value with
    | PStr v => negb (isdigit (remove_char "-" (remove_char "." v)))
    | _ => false
    end in
  if is_text then
    ret ("In " ++ location ++ " (" ++ py_str year ++ "), " ++ metric_desc ++ " is "
           ++ py_str value ++ ".")
  else if contains "count" unit || contains "units" (lower metric_desc) then
    ret (py_str state ++ " has " ++ value_str ++ " " ++ metric_desc ++ " as per the "
           ++ py_str year ++ " groundwater assessment.")
  else if String.eqb unit "percent" then
    ret ("In " ++ location ++ " (" ++ py_str year ++ "), " ++ metric_desc ++ " is "
           ++ value_str ++ "%.")
  else if negb (String.eqb unit_name "") then
    ret ("In " ++ location ++ " (" ++ py_str year ++ "), " ++ metric_desc ++ " is "
           ++ value_str ++ " " ++ unit_name ++ ".")
  else
    ret ("In " ++ location ++ " (" ++ py_str year ++ "), " ++ metric_desc ++ " is "
           ++ value_str ++ ".").

Definition important_zero_metrics : list string :=
  [ "over_exploited_count"; "critical_count"; "saline_count";
    "stage_of_extraction"; "categorization" ].

(** [any(m in metric.lower() for m in important_zero_metrics)] *)
Definition keeps_zero (metric : string) : bool :=
  existsb (fun m => contains m (lower metric)) important_zero_metrics.

(** [value is None or value == "" or (isinstance(value, str) and value.strip() == "")] *)
Definition is_blank (value : pyval) : bool :=
  is_none value || eq_str value ""
  || match value with
     | PStr v => String.eqb (strip v) ""
     | _ => false
     end.

(** [isinstance(value, (int, float)) and value == 0] *)
Definition is_zero (value : pyval) : bool :=
  is_number value && num_eq_zero value.

(** [create_record(...)]: [Ok None] when the fact is suppressed. *)
Definition create_record (state district block year : pyval) (metric : string)
    (value : pyval) (unit category source source_type metric_desc : string)
    (categorization : pyval) : result (option pyval) :=
  if is_blank value then Ok None
  else if is_zero value && negb (keeps_zero metric) then Ok None
  else
    text <- generate_text state district block year metric_desc value unit ;;
    ret (Some (PDict
      [ ("id", PStr (generate_id state (py_or district (PStr ""))
                                 (py_or block (PStr "")) year metric));
        ("state", state);
        ("district", district);
        ("block", block);
        ("year", year);
        ("metric", PStr metric);
        ("value", value);
        ("unit", PStr unit);
        ("category", PStr category);
        ("categorization", categorization);
        ("source", PStr source);
        ("source_type", PStr source_type);
        ("text", PStr text) ])).

(** One row of a [metrics] list: metric, value, unit, category, description. *)
Record metric_row : Type := mk_metric
  { m_metric : string; m_value : pyval; m_unit : string;
    m_category : string; m_desc : string }.

(** The loop
    [[
    for metric, value, unit, category, desc in metrics:
        rec = create_record(...)
        if rec:
            yield rec
    ]]
    as the list of the facts yielded. *)
Fixpoint emit_facts (state district block year : pyval) (source source_type : string)
    (categorization : pyval) (metrics : list metric_row) : result (list pyval) :=
  match metrics with
  | [] => Ok []
  | m :: rest =>
      rec <- create_record state district block year (m_metric m) (m_value m)
               (m_unit m) (m_category m) source source_type (m_desc m) categorization ;;
      facts <- emit_facts state district block year source source_type categorization rest ;;
      match rec with
      | Some r => if truthy r then ret (r :: facts) else ret facts
      | None => ret facts
      end
  end.










End Unified.

(* ====================================================================== *)
(** ** Sheets and rows used as examples *)
(* ====================================================================== *)

Module Examples.

(** A ten-cell row whose serial-number cell is the text [inf]. *)
Definition inf_row : list pyval :=
  [ PStr "inf"; PStr "StateX"; PStr "DistrictY"; PStr "BlockZ";
    PNone; PNone; PNone; PNone; PNone; PNone ].

(** Two rows, the second without a district: one record comes out. *)
Definition two_rows : list (list pyval) :=
  [ [ PInt 1; PStr "StateX"; PStr "DistrictY"; PStr "BlockZ";
      PNone; PNone; PNone; PNone; PStr "1,234.5"; PNone ];
    [ PInt 2; PStr "StateX"; PNone; PStr "BlockW";
      PNone; PNone; PNone; PNone; PNone; PNone ] ].

(** The first row of [two_rows] holds ["1,234.5"] in the rainfall-total
    column (index 8). *)
Definition rainfall_total (r : option pyval) : pyval :=
  match r with
  | Some record => Chunker.get_nested record ["rainfall_mm"; "total"]
  | None => PNone
  end.

(** A sheet where the row after the sentinel is the repeated header. *)
Definition header_after_sentinel : Central.sheet :=
  [ [ PStr "Dynamic Ground Water Resources of India, 2023" ];
    [ PStr "S.No"; PStr "Name of District" ];
    [ PInt 1; PStr "DistrictY" ] ].

(** A sheet where the name row has a second cell. *)
Definition name_row_with_note : Central.sheet :=
  [ [ PStr "DYNAMIC GROUND WATER RESOURCES" ];
    [ PStr "StateX"; PStr "as on March 2023" ];
    [ PInt 1; PStr "DistrictY" ] ].

Definition states_of (r : result (list pyval)) : result (list pyval) :=
  records <- r ;; ret (map (fun x => dict_get x "state") records).

Definition districts_of (r : result (list pyval)) : result (list pyval) :=
  records <- r ;; ret (map (fun x => dict_get x "district") records).

(** A sheet with a row whose serial cell is a remark and one whose
    serial cell is below 1. *)
Definition unnumbered_rows : Central.sheet :=
  [ [ PStr "Note"; PStr "DistrictY" ];
    [ PFloat (FFin false 5 (-1)); PStr "DistrictW" ];
    [ PInt 2; PStr "DistrictZ" ] ].

(** A sheet [Annexure 4A]: a title row, a section header with the name
    of the state under it, a row that names a critical unit and a row
    that names none. *)
Definition units_sheet : Central.sheet :=
  [ [ PStr "Annexure 4A" ];
    [ PStr "Categorisation of Assessment Units" ];
    [ PStr "StateX" ];
    [ PInt 1; PStr "DistrictY"; PNone; PNone; PNone; PStr " BlockZ " ];
    [ PInt 2; PStr "DistrictW" ] ].



(** A state-report record with a block name in capitals. *)
Definition block_record : pyval :=
  PDict [ ("district", PStr "DistrictY"); ("assessment_unit", PStr " BLOCK Z ") ].

End Examples.

(* ====================================================================== *)
(** ** Properties *)
(* ====================================================================== *)

Import Examples.

(** One step through a sequence of binds that returned. *)
Ltac step_bind H :=
  match type of H with
  | bind ?x _ = Ok _ =>
      let E := fresh "E" in
      destruct x eqn:E; [cbn [bind] in H | discriminate H]
  end.


(** *** Results and dict displays *)

Section ResultFacts.

Context {A : Type}.

Lemma raises_false_ok (r : result A) : raises r = false <-> is_ok r.
Proof.
  destruct r; simpl; split; intros H; try reflexivity; try discriminate.
  - now exists a.
  - destruct H as [a H]; discriminate.
Qed.

Lemma raises_true_not_ok (r : result A) : raises r = true <-> ~ is_ok r.
Proof.
  rewrite <- raises_false_ok. destruct (raises r); split; congruence.
Qed.

End ResultFacts.

Lemma eval_entries_ok (es : list (string * result pyval)) :
  Forall (fun kr => is_ok (snd kr)) es -> is_ok (eval_entries es).
Proof.
  induction 1 as [|[k r] es [v Hv] _ [kvs IH]]; simpl.
  - now exists [].
  - simpl in Hv. subst r. rewrite IH. now eexists.
Qed.

Lemma dict_of_ok (es : list (string * result pyval)) :
  Forall (fun kr => is_ok (snd kr)) es -> is_ok (dict_of es).
Proof.
  intros H. destruct (eval_entries_ok es H) as [kvs E].
  unfold dict_of. rewrite E. now eexists.
Qed.

Lemma dict_of_cons_raises k r (es : list (string * result pyval)) :
  is_ok (eval_entries es) -> raises (dict_of ((k, r) :: es)) = raises r.
Proof.
  intros [kvs E]. unfold dict_of. cbn [eval_entries]. rewrite E.
  now destruct r.
Qed.

Lemma eval_entries_cons k r (es : list (string * result pyval)) kvs :
  eval_entries ((k, r) :: es) = Ok kvs ->
  exists v kvs', r = Ok v /\ eval_entries es = Ok kvs' /\ kvs = (k, v) :: kvs'.
Proof.
  cbn [eval_entries]. destruct r as [v|e]; [|discriminate].
  destruct (eval_entries es) as [kvs'|e]; [|discriminate].
  intros [= <-]. now exists v, kvs'.
Qed.

Lemma dict_of_inv (es : list (string * result pyval)) j :
  dict_of es = Ok j -> exists kvs, eval_entries es = Ok kvs /\ j = PDict kvs.
Proof.
  unfold dict_of. destruct (eval_entries es) as [kvs|e]; [|discriminate].
  intros [= <-]. now exists kvs.
Qed.

Lemma index_ok (t : list pyval) (i : nat) :
  (i < length t)%nat -> is_ok (index t i).
Proof.
  intros H. unfold index.
  destruct (nth_error t i) eqn:E.
  - now eexists.
  - apply nth_error_None in E. lia.
Qed.

(** *** Strings *)

Lemma append_empty_r (s : string) : s ++ "" = s.
Proof. induction s as [|c s IH]; simpl; [reflexivity|now rewrite IH]. Qed.

Lemma append_assoc (a b c : string) : (a ++ b) ++ c = a ++ b ++ c.
Proof. induction a as [|x a IH]; simpl; [reflexivity|now rewrite IH]. Qed.

Lemma length_append (a b : string) :
  String.length (a ++ b) = (String.length a + String.length b)%nat.
Proof. induction a as [|x a IH]; simpl; [reflexivity|now rewrite IH]. Qed.

Lemma append_inv_tail (a b t : string) : a ++ t = b ++ t -> a = b.
Proof.
  revert b. induction a as [|x a IH]; intros [|y b] H; simpl in H.
  - reflexivity.
  - exfalso. apply (f_equal String.length) in H. simpl in H.
    rewrite length_append in H. lia.
  - exfalso. apply (f_equal String.length) in H. simpl in H.
    rewrite length_append in H. lia.
  - injection H as -> H. f_equal. now apply IH.
Qed.

Lemma rev_string_aux_app (s acc : string) :
  rev_string_aux s acc = rev_string s ++ acc.
Proof.
  unfold rev_string. revert acc.
  induction s as [|c s IH]; intros acc; simpl; [reflexivity|].
  rewrite (IH (String c acc)), (IH (String c "")), append_assoc. reflexivity.
Qed.

Lemma rev_string_cons (c : ascii) (s : string) :
  rev_string (String c s) = rev_string s ++ String c "".
Proof. unfold rev_string at 1. simpl. apply rev_string_aux_app. Qed.

Lemma rev_string_app (a b : string) :
  rev_string (a ++ b) = rev_string b ++ rev_string a.
Proof.
  induction a as [|c a IH]; simpl.
  - now rewrite append_empty_r.
  - now rewrite !rev_string_cons, IH, append_assoc.
Qed.

Lemma rev_string_involutive (s : string) : rev_string (rev_string s) = s.
Proof.
  induction s as [|c s IH]; [reflexivity|].
  now rewrite rev_string_cons, rev_string_app, IH.
Qed.

Lemma all_space_app (a b : string) :
  all_space (a ++ b) = all_space a && all_space b.
Proof.
  induction a as [|c a IH]; simpl; [reflexivity|].
  now rewrite IH, andb_assoc.
Qed.

Lemma all_space_rev (s : string) : all_space (rev_string s) = all_space s.
Proof.
  induction s as [|c s IH]; [reflexivity|].
  rewrite rev_string_cons, all_space_app, IH. simpl.
  rewrite andb_true_r. apply andb_comm.
Qed.

(** [lstrip] removes a run of white space and stops at the first other
    character. *)
Lemma lstrip_spec (s : string) :
  exists l, s = l ++ lstrip s /\ all_space l = true /\ starts_space (lstrip s) = false.
Proof.
  induction s as [|c s (l & E & A & B)]; simpl.
  - now exists "".
  - destruct (is_space c) eqn:C.
    + exists (String c l). simpl. rewrite C, A. now rewrite <- E.
    + exists "". simpl. now rewrite C.
Qed.

Lemma rstrip_spec (s : string) :
  exists r, s = rstrip s ++ r /\ all_space r = true /\ ends_space (rstrip s) = false.
Proof.
  destruct (lstrip_spec (rev_string s)) as (l & E & A & B).
  exists (rev_string l). unfold rstrip, ends_space.
  rewrite rev_string_involutive, all_space_rev. repeat split; try assumption.
  rewrite <- rev_string_app, <- E. symmetry. apply rev_string_involutive.
Qed.

(** [strip] trims: the result is the string between a run of white space
    at each end, and neither starts nor ends with white space. *)
Lemma strip_trimmed (s : string) : trimmed_of s (strip s).
Proof.
  destruct (lstrip_spec s) as (l & E & A & B).
  destruct (rstrip_spec (lstrip s)) as (r & E' & A' & B').
  exists l, r. unfold strip. repeat split; try assumption.
  - now rewrite <- E', <- E.
  - rewrite E' in B. destruct (rstrip (lstrip s)); [reflexivity|exact B].
Qed.

(** *** Reading floats never raises anything but [ValueError] or [TypeError] *)

Lemma mk_fin_finite neg m e : exists m' e', mk_fin neg m e = FFin neg m' e'.
Proof.
  unfold mk_fin. destruct (m =? 0)%N.
  - now exists 0%N, 0.
  - destruct (strip_zeros _ m e) as [m' e']. now exists m', e'.
Qed.

Lemma float_of_string_cases s :
  is_ok (float_of_string s) \/ float_of_string s = Raise ValueError.
Proof.
  unfold float_of_string.
  destruct (read_sign (strip s)) as [neg body].
  destruct (_ || _); [left; now eexists|].
  destruct (String.eqb _ "nan"); [left; now eexists|].
  destruct (read_number body) as [[m e]|]; [left; now eexists|now right].
Qed.

Lemma py_float_cases v :
  is_ok (py_float v) \/ py_float v = Raise ValueError \/ py_float v = Raise TypeError.
Proof.
  destruct v; simpl; try (left; now eexists); try tauto.
  destruct (float_of_string_cases s); tauto.
Qed.

Module StateReportFacts.
Import StateReport.

Lemma safe_float_ok v d : is_ok (safe_float v d).
Proof.
  unfold safe_float. destruct (_ || _); [now eexists|].
  destruct (py_float_cases v) as [[f E]|[E|E]]; rewrite E; simpl; now eexists.
Qed.

Lemma float_if_ok c row i :
  (c = true -> (i < length row)%nat) -> is_ok (float_if c row i).
Proof.
  intros H. unfold float_if. destruct c; [|now eexists].
  destruct (index_ok row i (H eq_refl)) as [v E]. rewrite E. simpl.
  destruct (safe_float_ok v zero) as [f F]. rewrite F. now eexists.
Qed.

Lemma str_if_ok c row i :
  (c = true -> (i < length row)%nat) -> is_ok (str_if c row i).
Proof.
  intros H. unfold str_if. destruct c; [|now eexists].
  destruct (index_ok row i (H eq_refl)) as [v E]. rewrite E. now eexists.
Qed.

Lemma float_at_ok row i : is_ok (float_at row i).
Proof. apply float_if_ok. unfold len. intros H. apply Z.ltb_lt in H. lia. Qed.

Lemma str_at_ok row i : is_ok (str_at row i).
Proof. apply str_if_ok. unfold len. intros H. apply Z.ltb_lt in H. lia. Qed.

Ltac guard_lt := unfold len; let H := fresh in intros H; apply Z.ltb_lt in H; lia.

Lemma get_cnc_pq_ok row start : is_ok (get_cnc_pq row start).
Proof.
  apply dict_of_ok. repeat constructor; simpl; apply float_if_ok; guard_lt.
Qed.

Lemma get_fresh_saline_ok row start : is_ok (get_fresh_saline row start).
Proof.
  apply dict_of_ok. repeat constructor; simpl; apply float_if_ok; guard_lt.
Qed.

Lemma cnc_pq_at_ok row i : is_ok (cnc_pq_at row i).
Proof. apply dict_of_ok. repeat constructor; simpl; apply float_at_ok. Qed.

Lemma index_then_ok row i (k : pyval -> pyval) :
  (i < length row)%nat -> is_ok (v <- index row i ;; ret (k v)).
Proof.
  intros H. destruct (index_ok row i H) as [v E]. rewrite E. now eexists.
Qed.

Ltac entries_ok :=
  repeat first
    [ apply get_cnc_pq_ok | apply get_fresh_saline_ok | apply cnc_pq_at_ok
    | apply float_at_ok | apply str_at_ok
    | apply index_then_ok; lia
    | now eexists
    | apply dict_of_ok; repeat constructor; cbn [snd] ].

(** Every entry of the record after [serial_no] evaluates. *)
Lemma record_tail_ok row st yr serial :
  (10 <= length row)%nat ->
  Forall (fun kr => is_ok (snd kr)) (tl (record_entries row st yr serial)).
Proof.
  intros H. unfold record_entries. cbn [tl].
  repeat constructor; cbn [snd]; entries_ok.
Qed.

Lemma record_raises_iff row st yr serial :
  (10 <= length row)%nat ->
  raises (dict_of (record_entries row st yr serial)) = true <->
  (exists b, serial = FInf b) \/ serial = FNan.
Proof.
  intros H. pose proof (record_tail_ok row st yr serial H) as T.
  apply eval_entries_ok in T.
  remember (tl (record_entries row st yr serial)) as rest eqn:R.
  assert (E : record_entries row st yr serial
              = hd ("", Ok PNone) (record_entries row st yr serial) :: rest)
    by (subst rest; reflexivity).
  assert (Hd : snd (hd ("", Ok PNone) (record_entries row st yr serial))
               = if float_truthy serial
                 then n <- int_of_float serial ;; ret (PInt n)
                 else ret PNone) by reflexivity.
  rewrite E. destruct (hd _ _) as [k r]. cbn [snd] in Hd. subst r.
  rewrite (dict_of_cons_raises _ _ _ T).
  destruct serial as [neg m e|b|]; cbn.
  - destruct (negb (m =? 0)%N); cbn.
    + destruct (fin_ratio m e); cbn. split; [discriminate|].
      intros [[b Hb]|Hb]; discriminate.
    + split; [discriminate|]. intros [[b Hb]|Hb]; discriminate.
  - split; [|reflexivity]. intros _. left. now exists b.
  - split; [|reflexivity]. intros _. now right.
Qed.

(** A string that strips to [Total] is not a float. *)
Lemma total_not_float s :
  strip s = "Total" -> float_of_string s = Raise ValueError.
Proof. intros E. unfold float_of_string. rewrite E. reflexivity. Qed.

Lemma special_serial_not_total r0 :
  (exists b, py_float r0 = Ok (FInf b)) \/ py_float r0 = Ok FNan ->
  eq_str (safe_str r0) "Total" = false.
Proof.
  intros H. destruct r0 as [|b|z|f|s|kvs|l]; try reflexivity;
    try (exfalso; cbn in H; destruct H as [[b H]|H]; discriminate).
  - now destruct b.
  - exfalso. cbn in H. unfold float_of_Z in H.
    destruct (mk_fin_finite (z <? 0) (Z.abs_N z) 0) as (m' & e' & E).
    rewrite E in H. destruct H as [[b H]|H]; discriminate.
  - cbn in H. destruct H as [[b [= ->]]|[= ->]]; [destruct b|]; reflexivity.
  - unfold safe_str. destruct (_ || _); [reflexivity|]. cbn [py_str eq_str].
    destruct (String.eqb (strip s) "Total") eqn:E; [|reflexivity].
    apply String.eqb_eq in E. cbn [py_float] in H.
    rewrite (total_not_float s E) in H. destruct H as [[b H]|H]; discriminate.
Qed.

(** When [parse_row_to_record] raises: exactly on a row of at least ten
    cells whose first cell reads as an infinity or a NaN. *)
Lemma parse_row_to_record_raises_iff row st yr :
  raises (parse_row_to_record row st yr) = true <->
  exists r0, nth_error row 0 = Some r0 /\ 10 <= len row /\ truthy r0 = true
             /\ ((exists b, py_float r0 = Ok (FInf b)) \/ py_float r0 = Ok FNan).
Proof.
  unfold parse_row_to_record.
  destruct row as [|r0 row']; [cbn; split; [discriminate|intros (? & [=] & _)]|].
  cbn [orb]. destruct (len (r0 :: row') <? 10) eqn:L.
  { cbn [raises]. split; [discriminate|]. intros (? & _ & G & _).
    apply Z.ltb_lt in L. lia. }
  apply Z.ltb_ge in L.
  assert (Hlen : (10 <= length (r0 :: row'))%nat) by (unfold len in L; lia).
  cbn [index nth_error bind]. destruct (truthy r0) eqn:T; cbn [negb].
  2:{ cbn [raises]. split; [discriminate|]. intros (? & [= <-] & _ & G & _). congruence. }
  destruct (py_float_cases r0) as [[serial E]|[E|E]]; rewrite E.
  - destruct (eq_str (safe_str r0) "Total") eqn:Tot.
    + cbn. split; [discriminate|]. intros (? & [= <-] & _ & _ & S).
      rewrite (special_serial_not_total _ S) in Tot. discriminate.
    + pose proof (record_raises_iff (r0 :: row') st yr serial Hlen) as R.
      destruct (dict_of _) as [j|e]; cbn in *.
      * split; [discriminate|]. intros (? & [= <-] & _ & _ & S).
        rewrite E in S. apply R.
        destruct S as [[b [= ->]]|[= ->]]; [left; now exists b|now right].
      * intros. split; [|reflexivity]. intros _. exists r0.
        repeat split; try assumption.
        destruct (proj1 R eq_refl) as [[b ->] | ->]; [left; now exists b|now right].
  - cbn. split; [discriminate|]. intros (? & [= <-] & _ & _ & [[b S]|S]); congruence.
  - cbn. split; [discriminate|]. intros (? & [= <-] & _ & _ & [[b S]|S]); congruence.
Qed.

(** The district of a parsed record is what [safe_str] made of the third cell. *)
Lemma parse_row_district row st yr r :
  parse_row_to_record row st yr = Ok (Some r) ->
  exists v, dict_get r "district" = safe_str v.
Proof.
  unfold parse_row_to_record. destruct (_ || _); [discriminate|].
  destruct (index row 0) as [r0|e]; [|discriminate]. cbn [bind].
  destruct (negb (truthy r0)); [discriminate|].
  destruct (py_float r0) as [serial|[]]; try discriminate.
  destruct (eq_str _ _); [discriminate|].
  destruct (dict_of _) as [j|e] eqn:D; [|discriminate].
  cbn. intros [= <-]. apply dict_of_inv in D. destruct D as (kvs & D & ->).
  unfold record_entries in D.
  apply eval_entries_cons in D. destruct D as (v1 & k1 & _ & D & ->).
  apply eval_entries_cons in D. destruct D as (v2 & k2 & _ & D & ->).
  apply eval_entries_cons in D. destruct D as (v3 & k3 & E3 & _ & ->).
  destruct (index row 2) as [v|e]; [|discriminate].
  cbn in E3. injection E3 as <-. now exists v.
Qed.

Lemma safe_str_truthy v :
  truthy (safe_str v) = true -> exists s, safe_str v = PStr s /\ s <> "".
Proof.
  unfold safe_str. destruct (_ || _); [discriminate|].
  cbn. intros H. eexists. split; [reflexivity|].
  intros E. rewrite E in H. discriminate.
Qed.

Lemma extract_loop_district rows st yr : forall acc recs,
  Forall has_district acc ->
  extract_loop rows st yr acc = Ok recs ->
  Forall has_district recs.
Proof.
  induction rows as [|row rows IH]; intros acc recs Hacc; cbn [extract_loop].
  - now intros [= <-].
  - destruct (parse_row_to_record row st yr) as [[r|]|e] eqn:P; cbn [bind];
      [| apply IH; assumption | discriminate].
    destruct (truthy r && truthy (dict_get r "district")) eqn:K;
      [| apply IH; assumption].
    apply IH. apply Forall_app. split; [assumption|]. constructor; [|constructor].
    apply andb_true_iff in K. destruct K as [_ K].
    destruct (parse_row_district _ _ _ _ P) as [v Hv].
    rewrite Hv in K. cbn in K. destruct (safe_str_truthy v K) as (s & Es & Ns).
    exists s. now rewrite Hv, Es.
Qed.

End StateReportFacts.



(* ---------------------------------------------------------------------- *)
(** *** State reports: rows that make the decoder raise (C7) *)
(* ---------------------------------------------------------------------- *)

(** C7: [parse_row_to_record] is not total.  On a row of ten cells whose
    first cell is the text [inf] the serial number reads as an infinity,
    passes the guarded [float(row[0])], and [int(serial)] in the record
    display raises [OverflowError] out of the function; the text [nan]
    raises [ValueError] the same way. *)
Theorem parse_row_to_record_raises_on_inf :
  StateReport.parse_row_to_record inf_row "StateX" "2023-2024" = Raise OverflowError
  /\ StateReport.parse_row_to_record (PStr "nan" :: tl inf_row) "StateX" "2023-2024"
     = Raise ValueError
  /\ StateReport.extract_state_report "StateX" "2023-2024" [PStr "1" :: tl inf_row]
     <> Ok []
  /\ StateReport.extract_state_report "StateX" "2023-2024" [inf_row] = Raise OverflowError.
Proof.
  repeat split; try reflexivity. vm_compute. discriminate.
Qed.

(* ---------------------------------------------------------------------- *)
(** *** State reports: every record kept has a district (C9) *)
(* ---------------------------------------------------------------------- *)

(** C9: every record in the list returned by [extract_state_report] has
    a [district] that is a non-empty string, hence not [None]: a parsed
    row without one is not appended. *)
Theorem extract_state_report_has_district (state year : string)
    (rows : list (list pyval)) (records : list pyval) :
  StateReport.extract_state_report state year rows = Ok records ->
  Forall (fun r => StateReport.has_district r /\ dict_get r "district" <> PNone) records.
Proof.
  intros H. unfold StateReport.extract_state_report in H.
  apply StateReportFacts.extract_loop_district in H; [|constructor].
  apply Forall_impl with (2 := H). intros r D. split; [exact D|].
  destruct D as (s & E & _). rewrite E. discriminate.
Qed.

Lemma extract_state_report_has_district_witness :
  exists records,
    StateReport.extract_state_report "StateX" "2023-2024" two_rows = Ok records
    /\ length records = 1%nat
    /\ Forall (fun r => StateReport.has_district r /\ dict_get r "district" <> PNone)
              records.
Proof.
  eexists. split; [vm_compute; reflexivity|]. split; [reflexivity|].
  apply (extract_state_report_has_district "StateX" "2023-2024" two_rows).
  vm_compute. reflexivity.
Defined.

(* ---------------------------------------------------------------------- *)
(** *** Value coercion: [safe_str] (C8) *)
(* ---------------------------------------------------------------------- *)




(* ---------------------------------------------------------------------- *)
(** *** Value coercion: [safe_float] (C1) *)
(* ---------------------------------------------------------------------- *)


Lemma missing_token_not_float (t : string) :
  str_in t Central.missing_tokens = true -> float_of_string t = Raise ValueError.
Proof.
  unfold str_in, Central.missing_tokens. cbn [existsb].
  rewrite !orb_true_iff, !String.eqb_eq.
  intros [->|[->|[->|[->|[->|[->|H]]]]]]; try reflexivity. discriminate.
Qed.

Lemma central_safe_float_ok v d : is_ok (Central.safe_float v d).
Proof.
  unfold Central.safe_float. destruct (is_none v); [now eexists|].
  destruct (is_number v) eqn:N.
  - destruct v; try discriminate; cbn; now eexists.
  - cbv zeta. destruct (str_in _ _); [now eexists|].
    destruct (float_of_string_cases (remove_char "," (strip (py_str v)))) as [[f E]|E];
      rewrite E; now eexists.
Qed.



(* ---------------------------------------------------------------------- *)
(** *** Identity assignment (C2, C10) *)
(* ---------------------------------------------------------------------- *)

Lemma length_le_bytes k n : length (MD5.le_bytes k n) = k.
Proof. revert n. induction k as [|k IH]; intros n; simpl; [reflexivity|now rewrite IH]. Qed.

Lemma length_hex bs : String.length (MD5.hex bs) = (2 * length bs)%nat.
Proof. induction bs as [|b bs IH]; simpl; [reflexivity|rewrite IH; lia]. Qed.

(** An MD5 [hexdigest] has 32 characters. *)
Lemma length_hexdigest s : String.length (MD5.hexdigest s) = 32%nat.
Proof.
  unfold MD5.hexdigest, MD5.digest. cbv zeta.
  rewrite length_hex, !length_app, !length_le_bytes. reflexivity.
Qed.

Lemma length_substring_0 n s :
  (n <= String.length s)%nat -> String.length (substring 0 n s) = n.
Proof.
  revert s. induction n as [|n IH]; intros [|c s] H; simpl in *; try reflexivity; try lia.
  rewrite IH; [reflexivity|lia].
Qed.

Lemma length_chunk_id parts : String.length (Chunker.generate_id parts) = 16%nat.
Proof.
  unfold Chunker.generate_id. apply length_substring_0.
  rewrite length_hexdigest. lia.
Qed.

Lemma length_fact_id state district block year metric :
  String.length (Unified.generate_id state district block year metric) = 12%nat.
Proof.
  unfold Unified.generate_id. apply length_substring_0.
  rewrite length_hexdigest. lia.
Qed.

Lemma join_cons sep p rest :
  join sep (p :: rest)
  = p ++ match rest with [] => "" | _ => sep ++ join sep rest end.
Proof. destruct rest; simpl; [now rewrite append_empty_r|reflexivity]. Qed.

(** C2, as stated, fails.  In the chunker the placeholder is itself a
    possible part: [None] and the text [_NULL_] are hashed alike.  In the
    fact generator there is no placeholder at all: the five parts are
    formatted as they are, an absent district or block as the empty
    string, [None] as the text [None]. *)
Lemma placeholder_collides_with_its_text :
  Chunker.generate_id [PNone; PStr "x"] = Chunker.generate_id [PStr "_NULL_"; PStr "x"]
  /\ Unified.id_content (PStr "StateX") (py_or PNone (PStr "")) (py_or PNone (PStr ""))
                        (PStr "2023-2024") "rainfall_total_mm"
     = "StateX|||2023-2024|rainfall_total_mm"
  /\ Unified.generate_id PNone (PStr "x") (PStr "") (PStr "") "m"
     = Unified.generate_id (PStr "None") (PStr "x") (PStr "") (PStr "") "m".
Proof. repeat split; vm_compute; reflexivity. Qed.

(** C2, amended.  The chunk id is the first 16 hexadecimal characters of
    the MD5 of the parts joined with [|], each [None] or empty part
    replaced by [_NULL_].  What is hashed for [(None, rest...)] and for
    [(s, rest...)] is the same text exactly when the string [s] is empty
    or [_NULL_]; then the ids are equal, otherwise the hashed texts
    differ.  The fact id is the first 12 hexadecimal characters of the
    MD5 of the five parts formatted as they are, without placeholder. *)
Theorem chunk_id_placeholder (parts rest : list pyval) (s : string) :
  Chunker.generate_id parts
  = substring 0 16 (MD5.hexdigest (join "|" (map Chunker.normalize_part parts)))
  /\ String.length (Chunker.generate_id parts) = 16%nat
  /\ Chunker.normalize_part PNone = "_NULL_"
  /\ Chunker.normalize_part (PStr "") = "_NULL_"
  /\ (Chunker.id_content (PNone :: rest) = Chunker.id_content (PStr s :: rest)
      <-> s = "" \/ s = "_NULL_")
  /\ (s = "" \/ s = "_NULL_" ->
      Chunker.generate_id (PNone :: rest) = Chunker.generate_id (PStr s :: rest))
  /\ (forall state district block year metric,
        Unified.generate_id state district block year metric
        = substring 0 12 (MD5.hexdigest
            (py_str state ++ "|" ++ py_str district ++ "|" ++ py_str block ++ "|"
               ++ py_str year ++ "|" ++ metric))
        /\ String.length (Unified.generate_id state district block year metric) = 12%nat).
Proof.
  assert (I : Chunker.id_content (PNone :: rest) = Chunker.id_content (PStr s :: rest)
              <-> s = "" \/ s = "_NULL_").
  { unfold Chunker.id_content. cbn [map]. rewrite !join_cons. split.
    - intros H. apply append_inv_tail in H.
      unfold Chunker.normalize_part in H. cbn [is_none eq_str orb py_str] in H.
      destruct (String.eqb s "") eqn:E.
      + left. now apply String.eqb_eq.
      + right. now symmetry.
    - intros [->| ->]; reflexivity. }
  split; [unfold Chunker.generate_id, Chunker.id_content; reflexivity|].
  split; [apply length_chunk_id|].
  split; [vm_compute; reflexivity|]. split; [vm_compute; reflexivity|].
  split; [exact I|]. split.
  - intros H. unfold Chunker.generate_id. now rewrite (proj2 I H).
  - intros state district block year metric.
    split; [unfold Unified.generate_id, Unified.id_content; reflexivity|].
    apply length_fact_id.
Qed.

Lemma chunk_id_placeholder_witness :
  Chunker.generate_id [PNone; PStr "DistrictY"; PStr "2023-2024"]
  = Chunker.generate_id [PStr ""; PStr "DistrictY"; PStr "2023-2024"].
Proof.
  destruct (chunk_id_placeholder [] [PStr "DistrictY"; PStr "2023-2024"] "")
    as (_ & _ & _ & _ & _ & A & _).
  apply A. left. reflexivity.
Defined.

Lemma create_record_id state district block year metric value unit category source
    source_type metric_desc categorization r :
  Unified.create_record state district block year metric value unit category source
                        source_type metric_desc categorization = Ok (Some r) ->
  dict_get r "id"
  = PStr (Unified.generate_id state (py_or district (PStr "")) (py_or block (PStr ""))
                              year metric).
Proof.
  unfold Unified.create_record.
  destruct (Unified.is_blank value); [discriminate|].
  destruct (_ && _); [discriminate|].
  destruct (Unified.generate_text _ _ _ _ _ _ _) as [text|e]; [|discriminate].
  cbn [bind ret]. intros [= <-]. reflexivity.
Qed.

(** C10: the id of a fact is decided by state, district-or-empty,
    block-or-empty, year and metric alone.  Two calls of [create_record]
    that agree on these and both give a record give the same id, of 12
    characters, whatever the value, unit, category, source, source type,
    description and categorization are. *)
Theorem fact_id_of_five_fields
    (state year : pyval) (metric : string)
    (district1 district2 block1 block2 value1 value2 : pyval)
    (unit1 unit2 category1 category2 source1 source2 : string)
    (source_type1 source_type2 metric_desc1 metric_desc2 : string)
    (categorization1 categorization2 r1 r2 : pyval) :
  py_or district1 (PStr "") = py_or district2 (PStr "") ->
  py_or block1 (PStr "") = py_or block2 (PStr "") ->
  Unified.create_record state district1 block1 year metric value1 unit1 category1
                        source1 source_type1 metric_desc1 categorization1 = Ok (Some r1) ->
  Unified.create_record state district2 block2 year metric value2 unit2 category2
                        source2 source_type2 metric_desc2 categorization2 = Ok (Some r2) ->
  dict_get r1 "id" = dict_get r2 "id"
  /\ exists h, dict_get r1 "id" = PStr h /\ String.length h = 12%nat.
Proof.
  intros D B H1 H2.
  apply create_record_id in H1. apply create_record_id in H2.
  rewrite H1, H2, D, B. split; [reflexivity|].
  eexists. split; [reflexivity|]. apply length_fact_id.
Qed.

Lemma fact_id_of_five_fields_witness :
  exists r1 r2,
    Unified.create_record (PStr "Kerala") PNone PNone (PStr "2023-2024")
      "rainfall_total_mm" (PFloat (FFin false 12345 (-1))) "mm" "rainfall"
      "state_reports/Kerala_2023-2024.json" "state_report" "total rainfall" PNone
    = Ok (Some r1)
    /\ Unified.create_record (PStr "Kerala") (PStr "") PNone (PStr "2023-2024")
         "rainfall_total_mm" (PInt 99) "ham" "recharge"
         "central_reports/central_2023-2024.json" "central_report" "rain"
         (PStr "safe")
       = Ok (Some r2)
    /\ dict_get r1 "id" = dict_get r2 "id"
    /\ dict_get r1 "value" <> dict_get r2 "value".
Proof.
  eexists. eexists.
  split; [vm_compute; reflexivity|]. split; [vm_compute; reflexivity|]. split.
  - apply (fact_id_of_five_fields (PStr "Kerala") (PStr "2023-2024") "rainfall_total_mm"
             PNone (PStr "") PNone PNone (PFloat (FFin false 12345 (-1))) (PInt 99)
             "mm" "ham" "rainfall" "recharge"
             "state_reports/Kerala_2023-2024.json" "central_reports/central_2023-2024.json"
             "state_report" "central_report" "total rainfall" "rain" PNone (PStr "safe"));
      try reflexivity; vm_compute; reflexivity.
  - vm_compute. discriminate.
Defined.

(* ---------------------------------------------------------------------- *)
(** *** Sectioned sheets: what the scanners do (C3, C4) *)
(* ---------------------------------------------------------------------- *)

Section Scanner.

Import Central.

Variable ws : sheet.

(** The state of a record is its second entry. *)
Lemma record_state (k1 : string) (r1 : result pyval) (st : pyval)
    (es : list (string * result pyval)) (j : pyval) :
  dict_of ((k1, r1) :: ("state", ret st) :: es) = Ok j ->
  k1 <> "state" -> dict_get j "state" = st.
Proof.
  intros D N. apply dict_of_inv in D. destruct D as (kvs & D & ->).
  apply eval_entries_cons in D. destruct D as (v1 & kvs1 & _ & D & ->).
  apply eval_entries_cons in D. destruct D as (v2 & kvs2 & E & _ & ->).
  injection E as <-. unfold dict_get, dict_get_or. cbn [lookup].
  apply String.eqb_neq in N. rewrite String.eqb_sym in N. rewrite N.
  reflexivity.
Qed.

(** On a sentinel row the 3B scanner takes the first cell of the next
    row as the key unless it is empty or a repeated [S.No] header, and
    yields nothing. *)
Lemma annexure3b_sentinel (row_idx : nat) (current_state : pyval) :
  is_sentinel (cell ws row_idx 1) = true ->
  annexure3b_row ws row_idx current_state
  = Ok (let next_val := cell ws (row_idx + 1) 1 in
        if truthy next_val
           && negb (str_in (strip (py_str next_val)) ["S.No"; "S.NO"])
        then PStr (safe_str next_val "") else current_state,
        None).
Proof.
  intros H. unfold annexure3b_row. rewrite H. cbv zeta.
  destruct (_ && _); reflexivity.
Qed.

(** The Annexure II scanner does the same without looking for a header. *)
Lemma annexure2_sentinel (year : string) (row_idx : nat) (current_state : pyval) :
  is_sentinel (cell ws row_idx 1) = true ->
  annexure2_row ws year row_idx current_state
  = Ok (let next_row_val := cell ws (row_idx + 1) 1 in
        if truthy next_row_val
        then PStr (safe_str next_row_val "") else current_state,
        None).
Proof.
  intros H. unfold annexure2_row. rewrite H. cbv zeta.
  destruct (truthy _); reflexivity.
Qed.

Lemma annexure3b_keeps_section : keeps_section ws (annexure3b_row ws).
Proof.
  intros row_idx k key emitted S. unfold annexure3b_row. rewrite S. cbv zeta.
  destruct (_ || _); [intros [= <- <-]; split; [reflexivity|discriminate]|].
  destruct (serial_skips _) as [[|]|e]; cbn [bind ret]; try discriminate.
  - intros [= <- <-]. split; [reflexivity|discriminate].
  - destruct (annexure3b_record _ _ _ _ _) as [j|e] eqn:R; [|discriminate].
    cbn [bind ret]. intros [= <- <-]. split; [reflexivity|].
    intros r [= <-]. unfold annexure3b_record in R.
    apply record_state in R; [exact R|discriminate].
Qed.

Lemma annexure2_keeps_section (year : string) : keeps_section ws (annexure2_row ws year).
Proof.
  intros row_idx k key emitted S. unfold annexure2_row. rewrite S. cbv zeta.
  match goal with |- context [bind ?x _] => destruct x as [[|]|e] end;
    cbn [bind ret]; try discriminate.
  - intros [= <- <-]. split; [reflexivity|discriminate].
  - destruct (_ || _); [intros [= <- <-]; split; [reflexivity|discriminate]|].
    destruct (annexure2_record _ _ _ _ _) as [j|e] eqn:R; [|discriminate].
    cbn [bind ret]. intros [= <- <-]. split; [reflexivity|].
    intros r [= <-]. unfold annexure2_record in R.
    apply record_state in R; [exact R|discriminate].
Qed.

(** Over a run of rows without a sentinel the key stays what it was and
    tags every record appended. *)
Lemma scan_section (body : nat -> pyval -> result step) :
  keeps_section ws body ->
  forall n first current_state records key records',
    (forall i, (first <= i < first + n)%nat -> is_sentinel (cell ws i 1) = false) ->
    scan body n first current_state records = Ok (key, records') ->
    key = current_state
    /\ exists new,
         records' = (records ++ new)%list
         /\ Forall (fun r => dict_get r "state" = py_or current_state (PStr "Unknown"))
                   new.
Proof.
  intros K. induction n as [|n IH]; intros first k records key records' NS; cbn [scan].
  - intros [= <- <-]. split; [reflexivity|]. exists []. now rewrite app_nil_r.
  - destruct (body first k) as [[k1 emitted]|e] eqn:B; [|discriminate].
    cbn [bind]. intros H.
    destruct (K first k k1 emitted (NS first ltac:(lia)) B) as [-> T].
    apply IH in H; [|intros i Hi; apply NS; lia].
    destruct H as (-> & new & -> & F). split; [reflexivity|].
    destruct emitted as [r|].
    + exists (r :: new). unfold list_append. rewrite <- app_assoc. split; [reflexivity|].
      constructor; [now apply T|exact F].
    + now exists new.
Qed.

(** A row yields a record in the 3B scanner only with a district that
    is no header or footer text and a serial number that reads as a
    float not below 1. *)
Lemma annexure3b_row_emits (row_idx : nat) (current_state key r : pyval) :
  annexure3b_row ws row_idx current_state = Ok (key, Some r) ->
  is_sentinel (cell ws row_idx 1) = false
  /\ truthy (cell ws row_idx 2) = true
  /\ str_in (strip (py_str (cell ws row_idx 2))) annexure3b_district_skips = false
  /\ truthy (cell ws row_idx 1) = true
  /\ exists serial, py_float (cell ws row_idx 1) = Ok serial /\ flt_Z serial 1 = false.
Proof.
  unfold annexure3b_row. cbv zeta.
  destruct (is_sentinel _); [destruct (_ && _); discriminate|].
  destruct (truthy (cell ws row_idx 2)); cbn [negb orb]; [|discriminate].
  destruct (str_in _ annexure3b_district_skips); [discriminate|].
  unfold serial_skips.
  destruct (truthy (cell ws row_idx 1)); cbn [bind ret try_except_VT]; [|discriminate].
  destruct (py_float (cell ws row_idx 1)) as [serial|[]];
    cbn [bind ret try_except_VT]; try discriminate.
  destruct (flt_Z serial 1) eqn:F; [discriminate|]. intros _.
  do 4 (split; [reflexivity|]). exists serial. split; [reflexivity|exact F].
Qed.

End Scanner.

(** C3: in [extract_annexure2] the cell after the sentinel row becomes
    the section key even when it is the repeated [S.No] header, and the
    name row is yielded as data when its second cell is filled; the 3B
    scanner on the same sheets keeps the key and drops the name row. *)
Theorem annexure2_takes_header_as_key :
  states_of (Central.extract_annexure2 header_after_sentinel "2022-2023")
  = Ok [PStr "S.No"]
  /\ states_of (Central.extract_annexure3b header_after_sentinel) = Ok [PStr "Unknown"]
  /\ districts_of (Central.extract_annexure2 name_row_with_note "2022-2023")
     = Ok [PStr "as on March 2023"; PStr "DistrictY"]
  /\ districts_of (Central.extract_annexure3b name_row_with_note) = Ok [PStr "DistrictY"].
Proof. repeat split; vm_compute; reflexivity. Qed.

(** C4: [extract_annexure2] tests the serial number only when the first
    cell is empty or one of its header texts, so a row whose first cell
    is any other text, or a number below 1, is decoded into a record; the
    3B scanner skips both rows. *)
Theorem annexure2_keeps_unnumbered_rows :
  districts_of (Central.extract_annexure2 unnumbered_rows "2022-2023")
  = Ok [PStr "DistrictY"; PStr "DistrictW"; PStr "DistrictZ"]
  /\ districts_of (Central.extract_annexure3b unnumbered_rows) = Ok [PStr "DistrictZ"].
Proof. split; vm_compute; reflexivity. Qed.

(* ---------------------------------------------------------------------- *)
(** *** Metric facts: the zero rule (C5) *)
(* ---------------------------------------------------------------------- *)

Section ZeroRule.

Import Unified.

Variables (state district block year : pyval).
Variables (source source_type : string) (categorization : pyval).

(** What a record returned by [create_record] holds. *)
Lemma create_record_some metric value unit category metric_desc r :
  create_record state district block year metric value unit category source
                source_type metric_desc categorization = Ok (Some r) ->
  dict_get r "metric" = PStr metric /\ dict_get r "value" = value /\ truthy r = true.
Proof.
  unfold create_record.
  destruct (is_blank value); [discriminate|].
  destruct (_ && _); [discriminate|].
  destruct (generate_text _ _ _ _ _ _ _) as [text|e]; [|discriminate].
  cbn [bind ret]. intros [= <-]. repeat split.
Qed.






(** The facts yielded by the loop are the records [create_record]
    returns for the rows, no more and no less. *)
Lemma emit_facts_in (metrics : list metric_row) : forall facts,
  emit_facts state district block year source source_type categorization metrics
  = Ok facts ->
  forall f, In f facts <->
    exists m, In m metrics
              /\ create_record state district block year (m_metric m) (m_value m)
                   (m_unit m) (m_category m) source source_type (m_desc m)
                   categorization = Ok (Some f).
Proof.
  induction metrics as [|m rest IH]; intros facts; cbn [emit_facts].
  - intros [= <-] f. split; [intros []|intros (m & [] & _)].
  - destruct (create_record _ _ _ _ (m_metric m) _ _ _ _ _ _ _) as [rec|e] eqn:C;
      [|discriminate].
    cbn [bind].
    destruct (emit_facts _ _ _ _ _ _ _ rest) as [facts'|e]; [|discriminate].
    cbn [bind]. specialize (IH facts' eq_refl).
    destruct rec as [r|].
    + destruct (create_record_some _ _ _ _ _ _ C) as (_ & _ & T). rewrite T.
      cbn [ret]. intros [= <-] f. cbn [In]. rewrite IH. split.
      * intros [<-|(m' & I & E)]; [exists m; now split; [left|]|].
        exists m'. split; [now right|exact E].
      * intros (m' & [<-|I] & E); [left; congruence|].
        right. now exists m'.
    + cbn [ret]. intros [= <-] f. rewrite IH. split.
      * intros (m' & I & E). exists m'. split; [now right|exact E].
      * intros (m' & [<-|I] & E); [congruence|]. now exists m'.
Qed.

End ZeroRule.



(* ---------------------------------------------------------------------- *)
(** *** Chunk text: magnitudes (C6) *)
(* ---------------------------------------------------------------------- *)

Lemma fin_ratio_pos m e : 0 <= fst (fin_ratio m e) /\ 0 < snd (fin_ratio m e).
Proof.
  unfold fin_ratio, pow10. destruct (0 <=? e) eqn:E; cbn [fst snd].
  - apply Z.leb_le in E. split; [|lia].
    apply Z.mul_nonneg_nonneg; [apply N2Z.is_nonneg|].
    apply Z.pow_nonneg. lia.
  - apply Z.leb_gt in E. split; [apply N2Z.is_nonneg|].
    apply Z.pow_pos_nonneg; lia.
Qed.

(** [f == int(f)] holds exactly for the floats that are integers. *)
Lemma feq_int_integral neg m e :
  feq_Z (FFin neg m e)
        (let '(a, b) := fin_ratio m e in if neg then - (a / b) else a / b)
  = (let '(a, b) := fin_ratio m e in a mod b =? 0).
Proof.
  unfold feq_Z, fcompare_Z. pose proof (fin_ratio_pos m e) as [A B].
  destruct (fin_ratio m e) as [a b]. cbn [fst snd] in A, B.
  pose proof (Z.div_mod a b ltac:(lia)) as D.
  destruct (a mod b =? 0) eqn:M.
  - apply Z.eqb_eq in M.
    assert (E : (if neg then - a else a) = (if neg then - (a / b) else a / b) * b)
      by (destruct neg; nia).
    rewrite E, Z.compare_refl. reflexivity.
  - apply Z.eqb_neq in M.
    destruct ((if neg then - a else a) ?= (if neg then - (a / b) else a / b) * b) eqn:C;
      try reflexivity.
    apply Z.compare_eq in C. exfalso. apply M. destruct neg; nia.
Qed.

(** C6: what [format_value] of the chunker does with a float.  From a
    million on in absolute value it prints the value over a million to
    two decimals and [M], from a thousand on the value over a thousand
    to two decimals and [K]; below, an integer is printed without
    decimals and any other number to two decimals.  NaN reaches
    [int(value)] and raises [ValueError]. *)
Theorem format_value_float (f : pyfloat) :
  Chunker.format_value (PFloat f)
  = if fge_Z (fabs f) 1000000 then Ok (format_2f (fdiv_pow10 f 6) ++ "M")
    else if fge_Z (fabs f) 1000 then Ok (format_2f (fdiv_pow10 f 3) ++ "K")
    else match f with
         | FNan => Raise ValueError
         | _ => Ok (match integral_value f with
                    | Some n => str_of_Z n
                    | None => format_2f f
                    end)
         end.
Proof.
  unfold Chunker.format_value.
  destruct (fge_Z (fabs f) 1000000); [reflexivity|].
  destruct (fge_Z (fabs f) 1000) eqn:K; [reflexivity|].
  destruct f as [neg m e|b|]; [| destruct b; discriminate K | reflexivity].
  pose proof (feq_int_integral neg m e) as I.
  unfold int_of_float, integral_value.
  destruct (fin_ratio m e) as [a b]. cbn [bind]. rewrite I.
  destruct (a mod b =? 0); reflexivity.
Qed.

(** Substrings. *)
Lemma prefix_split sub : forall s, prefix sub s = true -> exists b, s = sub ++ b.
Proof.
  induction sub as [|c sub IH]; intros s H.
  - exists s. reflexivity.
  - destruct s as [|d s]; [discriminate|]. cbn in H.
    destruct (ascii_dec c d) as [<-|]; [|discriminate].
    destruct (IH s H) as [b ->]. now exists b.
Qed.

Lemma prefix_app sub b : prefix sub (sub ++ b) = true.
Proof.
  induction sub as [|c sub IH]; cbn.
  - now destruct b.
  - destruct (ascii_dec c c); [exact IH|congruence].
Qed.

Lemma contains_intro sub a b : contains sub (a ++ sub ++ b) = true.
Proof.
  induction a as [|c a IH].
  - cbn [append]. destruct (sub ++ b) eqn:E; cbn [contains];
      rewrite <- E, prefix_app; reflexivity.
  - cbn [append contains]. rewrite IH. now destruct (prefix _ _).
Qed.

Lemma contains_split sub : forall s,
  contains sub s = true -> exists a b, s = a ++ sub ++ b.
Proof.
  induction s as [|c s IH]; cbn [contains]; intros H.
  - destruct (prefix sub "") eqn:P; [|discriminate].
    destruct (prefix_split _ _ P) as [b ->]. now exists "", b.
  - destruct (prefix sub (String c s)) eqn:P.
    + destruct (prefix_split _ _ P) as [b ->]. now exists "", b.
    + destruct (IH H) as (a & b & ->). now exists (String c a), b.
Qed.

Lemma contains_app sub x s y :
  contains sub s = true -> contains sub (x ++ s ++ y) = true.
Proof.
  intros H. destruct (contains_split _ _ H) as (a & b & ->).
  replace (x ++ (a ++ sub ++ b) ++ y) with ((x ++ a) ++ sub ++ (b ++ y))
    by now rewrite !append_assoc.
  apply contains_intro.
Qed.

Lemma contains_join sub sep parts :
  mentions sub parts -> contains sub (join sep parts) = true.
Proof.
  induction 1 as [p rest H|p rest H IH].
  - rewrite join_cons. rewrite <- (append_empty_r p) at 1.
    rewrite append_assoc. apply (contains_app sub "" p). exact H.
  - rewrite join_cons. destruct rest as [|q rest]; [inversion H|].
    replace (p ++ sep ++ join sep (q :: rest))
      with ((p ++ sep) ++ join sep (q :: rest) ++ "")
      by now rewrite append_assoc, append_empty_r.
    apply contains_app. exact IH.
Qed.

Section ChunkText.

Import Chunker.

Variable sub : string.

Lemma mentions_append parts x : mentions sub parts -> mentions sub (list_append parts x).
Proof. intros H. apply Exists_app. now left. Qed.

Lemma mentions_append_if c item parts parts' :
  append_if c item parts = Ok parts' -> mentions sub parts -> mentions sub parts'.
Proof.
  unfold append_if. destruct c; [|now intros [= <-]].
  destruct item as [x|e]; [|discriminate]. cbn [bind ret].
  intros [= <-]. apply mentions_append.
Qed.

Lemma mentions_append_info info parts :
  mentions sub parts -> mentions sub (append_info info parts).
Proof. destruct info; [trivial|]. apply mentions_append. Qed.

Lemma mentions_info info parts :
  mentions sub info -> mentions sub (append_info info parts).
Proof.
  intros H. pose proof (contains_join sub " | " info H) as C.
  destruct info as [|p info]; [inversion H|].
  unfold append_info, list_append. apply Exists_app. right. constructor.
  exact (contains_app sub "" (join " | " (p :: info)) "." C).
Qed.

End ChunkText.

Lemma chunk_text_recharge_in_millions record state year source row_index chunk :
  Chunker.build_state_report_chunk record state year source row_index = Ok (Some chunk) ->
  Chunker.get_nested record ["annual_gw_recharge_ham"; "total"]
  = PFloat (float_of_Z 1500000) ->
  contains "1.50M" (py_str (dict_get chunk "text")) = true.
Proof.
  intros H R. unfold Chunker.build_state_report_chunk in H.
  do 4 step_bind H.
  destruct (negb _); [discriminate|].
  step_bind H. cbv zeta in H. rewrite R in H.
  repeat step_bind H.
  match goal with
  | E : Chunker.append_if (truthy (PFloat _)) _ [] = Ok ?l |- _ =>
      vm_compute in E; injection E as <-
  end.
  cbn [ret] in H. injection H as <-.
  unfold dict_get, dict_get_or.
  cbn [lookup String.eqb Ascii.eqb Bool.eqb py_str].
  apply contains_join.
  eapply mentions_append_if; [eassumption|].
  match goal with
  | |- mentions _ (if ?c then _ else _) => destruct c; [apply mentions_append|]
  end;
    do 2 apply mentions_append_info; apply mentions_info;
    (eapply mentions_append_if; [eassumption|]);
    constructor; vm_compute; reflexivity.
Qed.


(* ====================================================================== *)
(** ** Further properties of the scripts *)
(* ====================================================================== *)

(** *** Letters, case and white space *)

Ltac all_ascii c := destruct c as [[] [] [] [] [] [] [] []]; reflexivity.

Lemma lower_char_idem c : lower_char (lower_char c) = lower_char c.
Proof. all_ascii c. Qed.

Lemma upper_char_idem c : upper_char (upper_char c) = upper_char c.
Proof. all_ascii c. Qed.

Lemma lower_upper_char c : lower_char (upper_char c) = lower_char c.
Proof. all_ascii c. Qed.

Lemma is_space_lower_char c : is_space (lower_char c) = is_space c.
Proof. all_ascii c. Qed.

Lemma is_space_upper_char c : is_space (upper_char c) = is_space c.
Proof. all_ascii c. Qed.

Lemma is_cased_lower_char c : is_cased (lower_char c) = is_cased c.
Proof. all_ascii c. Qed.

Lemma is_cased_upper_char c : is_cased (upper_char c) = is_cased c.
Proof. all_ascii c. Qed.

Lemma title_char_idem b c : title_char b (title_char b c) = title_char b c.
Proof. destruct b; [apply lower_char_idem|apply upper_char_idem]. Qed.

Lemma is_cased_title_char b c : is_cased (title_char b c) = is_cased c.
Proof. destruct b; [apply is_cased_lower_char|apply is_cased_upper_char]. Qed.

Lemma is_space_title_char b c : is_space (title_char b c) = is_space c.
Proof. destruct b; [apply is_space_lower_char|apply is_space_upper_char]. Qed.

Lemma lower_title_char b c : lower_char (title_char b c) = lower_char c.
Proof. destruct b; [apply lower_char_idem|apply lower_upper_char]. Qed.

Lemma title_aux_idem s : forall b, title_aux b (title_aux b s) = title_aux b s.
Proof.
  induction s as [|c s IH]; intros b; cbn [title_aux]; [reflexivity|].
  fold (title_char b c). fold (title_char b (title_char b c)).
  now rewrite title_char_idem, is_cased_title_char, IH.
Qed.

Lemma lower_title_aux s : forall b, lower (title_aux b s) = lower s.
Proof.
  unfold lower. induction s as [|c s IH]; intros b; cbn [title_aux map_string];
    [reflexivity|].
  fold (title_char b c). now rewrite lower_title_char, IH.
Qed.

Lemma title_aux_empty s b : title_aux b s = "" -> s = "".
Proof. destruct s; [reflexivity|discriminate]. Qed.

Lemma starts_space_app a b :
  starts_space (a ++ b) = match a with "" => starts_space b | _ => starts_space a end.
Proof. now destruct a. Qed.

Lemma rev_string_empty s : rev_string s = "" -> s = "".
Proof.
  destruct s as [|c s]; [reflexivity|]. rewrite rev_string_cons.
  intros H. apply (f_equal String.length) in H. rewrite length_append in H.
  simpl in H. lia.
Qed.

Lemma ends_space_last s : ends_space s = last_space s.
Proof.
  unfold ends_space. induction s as [|c s IH]; [reflexivity|].
  rewrite rev_string_cons, starts_space_app. destruct s as [|d s]; [reflexivity|].
  change (last_space (String c (String d s))) with (last_space (String d s)).
  rewrite <- IH.
  destruct (rev_string (String d s)) eqn:E; [|reflexivity].
  apply rev_string_empty in E. discriminate.
Qed.

Lemma last_space_title_aux s : forall b, last_space (title_aux b s) = last_space s.
Proof.
  induction s as [|c s IH]; intros b; [reflexivity|]. cbn [title_aux].
  fold (title_char b c). destruct s as [|d s].
  - cbn. apply is_space_title_char.
  - specialize (IH (is_cased c)).
    change (last_space (String d s)) with (last_space (String c (String d s))) in IH.
    rewrite <- IH. reflexivity.
Qed.

Lemma starts_space_title_aux s b : starts_space (title_aux b s) = starts_space s.
Proof.
  destruct s as [|c s]; [reflexivity|]. cbn. fold (title_char b c).
  apply is_space_title_char.
Qed.

Lemma lstrip_fixed s : starts_space s = false -> lstrip s = s.
Proof. destruct s as [|c s]; [reflexivity|]. cbn. now intros ->. Qed.

(** A string without white space at its ends is left alone by [strip]. *)
Lemma strip_fixed s : starts_space s = false -> ends_space s = false -> strip s = s.
Proof.
  intros A B. unfold strip, rstrip. rewrite (lstrip_fixed s A).
  unfold ends_space in B. rewrite (lstrip_fixed _ B). apply rev_string_involutive.
Qed.

Lemma strip_edges s : starts_space (strip s) = false /\ ends_space (strip s) = false.
Proof. destruct (strip_trimmed s) as (l & r & _ & _ & _ & A & B). now split. Qed.

Lemma strip_idem s : strip (strip s) = strip s.
Proof. destruct (strip_edges s). now apply strip_fixed. Qed.

Lemma retitle_idem s : retitle (retitle s) = retitle s.
Proof.
  unfold retitle. destruct (isupper s) eqn:U; [|now rewrite U].
  unfold title. rewrite title_aux_idem.
  now destruct (isupper (title_aux false s)).
Qed.

Lemma lower_retitle s : lower (retitle s) = lower s.
Proof. unfold retitle. destruct (isupper s); [apply lower_title_aux|reflexivity]. Qed.

Lemma retitle_edges s :
  starts_space (retitle s) = starts_space s /\ ends_space (retitle s) = ends_space s.
Proof.
  unfold retitle. destruct (isupper s); [|now split]. unfold title. split.
  - apply starts_space_title_aux.
  - rewrite !ends_space_last. apply last_space_title_aux.
Qed.

Lemma retitle_empty s : retitle s = "" -> s = "".
Proof.
  unfold retitle. destruct (isupper s); [apply title_aux_empty|trivial].
Qed.

Lemma strip_retitle_strip s : strip (retitle (strip s)) = retitle (strip s).
Proof.
  destruct (strip_edges s) as [A B]. destruct (retitle_edges (strip s)) as [C D].
  apply strip_fixed; congruence.
Qed.

(** *** Name cleaning *)

Lemma replace_name_lower a b rs :
  lower a = lower b -> Chunker.replace_name a rs = Chunker.replace_name b rs.
Proof.
  intros H. induction rs as [|[old new] rs IH]; cbn [Chunker.replace_name];
    [reflexivity|].
  now rewrite H, IH.
Qed.

Lemma replace_name_in a rs new :
  Chunker.replace_name a rs = Some new -> In new (map snd rs).
Proof.
  induction rs as [|[old n] rs IH]; cbn [Chunker.replace_name]; [discriminate|].
  destruct (String.eqb _ _).
  - intros [= ->]. now left.
  - intros H. right. now apply IH.
Qed.

(** Each misspelling of the table leads to its own correction, and each
    correction is left alone by both cleaners. *)
Lemma state_replacements_sound :
  Forall (fun on => Chunker.replace_name (fst on) Chunker.state_replacements
                    = Some (snd on)
                    /\ str_in (lower (fst on)) ["null"; "none"; ""] = false)
         Chunker.state_replacements.
Proof. repeat constructor. Qed.

Lemma state_corrections_fixed :
  Forall (fun new => Unified.clean_state_name (PStr new) = PStr new
                     /\ Chunker.clean_name (PStr new) "state" = PStr new
                     /\ new <> "" /\ str_in (lower new) ["null"; "none"; ""] = false
                     /\ starts_space new = false /\ ends_space new = false)
         (map snd Chunker.state_replacements).
Proof. repeat constructor; discriminate. Qed.

Lemma lower_empty s : lower s = "" -> s = "".
Proof. destruct s; [reflexivity|discriminate]. Qed.

Lemma truthy_str s : truthy (PStr s) = negb (String.eqb s "").
Proof. reflexivity. Qed.

(** X1: [clean_state_name] is idempotent: cleaning a cleaned state name
    changes nothing, whatever the value cleaned first. *)
Theorem clean_state_name_idempotent (state : pyval) :
  Unified.clean_state_name (Unified.clean_state_name state)
  = Unified.clean_state_name state.
Proof.
  destruct (truthy state) eqn:T.
  2:{ assert (E : Unified.clean_state_name state = state)
        by (unfold Unified.clean_state_name; now rewrite T).
      now rewrite !E. }
  set (y := retitle (strip (py_str state))).
  assert (E : Unified.clean_state_name state
              = PStr match Chunker.replace_name y Chunker.state_replacements with
                     | Some new => new
                     | None => y
                     end).
  { unfold Unified.clean_state_name. rewrite T. cbn [negb]. cbv zeta.
    fold (retitle (strip (py_str state))). fold y. now destruct (Chunker.replace_name _ _). }
  rewrite E.
  destruct (Chunker.replace_name y Chunker.state_replacements) as [new|] eqn:R.
  - apply replace_name_in in R.
    pose proof state_corrections_fixed as F. rewrite Forall_forall in F.
    now apply F.
  - unfold Unified.clean_state_name. rewrite truthy_str.
    destruct (String.eqb y "") eqn:Ey; cbn [negb]; [reflexivity|].
    cbv zeta. cbn [py_str]. fold (retitle (strip y)).
    assert (S : strip y = y) by apply strip_retitle_strip.
    rewrite S. unfold y at 1 2. rewrite retitle_idem. fold y. now rewrite R.
Qed.

(** X2: both state cleaners correct a known misspelling whatever its
    case and the white space around it. *)
Theorem clean_state_name_canonical (s old new : string) :
  In (old, new) Chunker.state_replacements ->
  lower (strip s) = lower old ->
  Unified.clean_state_name (PStr s) = PStr new
  /\ Chunker.clean_name (PStr s) "state" = PStr new.
Proof.
  intros I L.
  pose proof state_replacements_sound as F. rewrite Forall_forall in F.
  destruct (F _ I) as [R N]. cbn [fst snd] in R, N.
  assert (X : strip s <> "").
  { intros E. rewrite E in L. cbn in L. symmetry in L. apply lower_empty in L.
    subst old. discriminate N. }
  assert (T : truthy (PStr s) = true).
  { rewrite truthy_str. destruct (String.eqb s "") eqn:E; [|reflexivity].
    apply String.eqb_eq in E. subst s. now elim X. }
  assert (Ry : Chunker.replace_name (retitle (strip s)) Chunker.state_replacements
               = Some new).
  { rewrite <- R. apply replace_name_lower. now rewrite lower_retitle. }
  split.
  - unfold Unified.clean_state_name. rewrite T. cbn [negb py_str]. cbv zeta.
    fold (retitle (strip s)). now rewrite Ry.
  - unfold Chunker.clean_name. rewrite T. cbn [negb py_str]. cbv zeta.
    apply String.eqb_neq in X. rewrite X, L, N. cbn [orb].
    fold (retitle (strip s)). cbn [String.eqb Ascii.eqb Bool.eqb]. now rewrite Ry.
Qed.

Lemma clean_state_name_canonical_witness :
  Unified.clean_state_name (PStr "  KERELA ") = PStr "Kerala"
  /\ Chunker.clean_name (PStr "  KERELA ") "state" = PStr "Kerala".
Proof.
  apply (clean_state_name_canonical "  KERELA " "Kerela" "Kerala").
  - cbn. do 8 right. left. reflexivity.
  - reflexivity.
Defined.

Lemma retitle_not_empty s : s <> "" -> retitle s <> "".
Proof. intros N E. now apply retitle_empty in E. Qed.

Lemma clean_name_cases (name : pyval) (name_type : string) :
  Chunker.clean_name name name_type = PNone
  \/ exists s, Chunker.clean_name name name_type = PStr s
               /\ s <> "" /\ lower s <> "null" /\ lower s <> "none"
               /\ starts_space s = false /\ ends_space s = false.
Proof.
  unfold Chunker.clean_name. destruct (negb (truthy name)); [now left|].
  cbv zeta. set (x := strip (py_str name)).
  destruct (String.eqb x "") eqn:E; cbn [orb]; [now left|].
  destruct (str_in (lower x) ["null"; "none"; ""]) eqn:N; [now left|]. right.
  fold (retitle x).
  assert (G : retitle x <> "" /\ lower (retitle x) <> "null"
              /\ lower (retitle x) <> "none"
              /\ starts_space (retitle x) = false /\ ends_space (retitle x) = false).
  { apply String.eqb_neq in E. split; [now apply retitle_not_empty|].
    rewrite lower_retitle. unfold str_in in N. cbn [existsb] in N.
    rewrite !orb_false_iff, !String.eqb_neq in N. destruct N as (N1 & N2 & _).
    destruct (retitle_edges x) as [A B]. destruct (strip_edges (py_str name)) as [C D].
    fold x in C, D. repeat split; congruence. }
  destruct (String.eqb name_type "state"); [|now eexists].
  destruct (Chunker.replace_name _ _) as [new|] eqn:R; [|now eexists].
  apply replace_name_in in R. pose proof state_corrections_fixed as F.
  rewrite Forall_forall in F. destruct (F _ R) as (_ & _ & F1 & F2 & F3 & F4).
  exists new. unfold str_in in F2. cbn [existsb] in F2.
  rewrite !orb_false_iff, !String.eqb_neq in F2. destruct F2 as (N1 & N2 & _).
  repeat split; assumption.
Qed.

(** X3: [clean_name] of the chunker gives [None] or a name that is not
    empty, has no white space at its ends and is not the text [null] or
    [none] in any case. *)
Theorem clean_name_never_blank (name : pyval) (name_type : string) :
  Chunker.clean_name name name_type = PNone
  \/ exists s, Chunker.clean_name name name_type = PStr s
               /\ s <> "" /\ lower s <> "null" /\ lower s <> "none"
               /\ starts_space s = false /\ ends_space s = false.
Proof. apply clean_name_cases. Qed.

(** X4: [clean_district_name] and [clean_block_name] give [None] or a
    name that is not empty, has no white space at its ends and is not the
    text [null] in any case; the two functions are the same. *)
Theorem clean_district_name_never_blank (name : pyval) :
  Unified.clean_block_name name = Unified.clean_district_name name
  /\ (Unified.clean_district_name name = PNone
      \/ exists s, Unified.clean_district_name name = PStr s
                   /\ s <> "" /\ lower s <> "null"
                   /\ starts_space s = false /\ ends_space s = false).
Proof.
  split; [reflexivity|].
  unfold Unified.clean_district_name. destruct (negb (truthy name)); [now left|].
  cbv zeta. set (x := strip (py_str name)).
  destruct (String.eqb x "") eqn:E; cbn [orb]; [now left|].
  destruct (String.eqb (lower x) "null") eqn:N; [now left|]. right.
  fold (retitle x). exists (retitle x).
  apply String.eqb_neq in E. apply String.eqb_neq in N.
  destruct (retitle_edges x) as [A B]. destruct (strip_edges (py_str name)) as [C D].
  fold x in C, D. rewrite lower_retitle.
  repeat split; try congruence. now apply retitle_not_empty.
Qed.

(** *** Metric facts: errors and what a fact holds *)

Lemma generate_text_raises state district block year metric_desc value unit :
  raises (Unified.generate_text state district block year metric_desc value unit)
  = raises (Unified.format_value value).
Proof.
  unfold Unified.generate_text. cbv zeta.
  destruct (Unified.format_value value) as [v|e]; cbn [bind raises]; [|reflexivity].
  repeat match goal with |- raises (if ?c then _ else _) = _ => destruct c end;
    reflexivity.
Qed.

Lemma feq_zero_finite f : feq_Z f 0 = true -> exists neg m e, f = FFin neg m e.
Proof.
  destruct f as [neg m e|[]|]; try discriminate. intros _. now exists neg, m, e.
Qed.

(** X5: [create_record] raises exactly when the value is a float
    infinity or NaN ([int(value)] in [format_value]); for every other
    value it returns a fact or [None]. *)
Theorem create_record_raises_iff
    (state district block year : pyval) (metric : string) (value : pyval)
    (unit category source source_type metric_desc : string) (categorization : pyval) :
  raises (Unified.create_record state district block year metric value unit category
                                source source_type metric_desc categorization) = true
  <-> (exists b, value = PFloat (FInf b)) \/ value = PFloat FNan.
Proof.
  unfold Unified.create_record.
  destruct (Unified.is_blank value) eqn:B.
  { cbn. split; [discriminate|].
    intros [[b ->]| ->]; discriminate B. }
  destruct (Unified.is_zero value && negb (Unified.keeps_zero metric)) eqn:Z.
  { cbn. split; [discriminate|]. apply andb_true_iff in Z. destruct Z as [Z _].
    intros [[b ->]| ->]; [destruct b|]; discriminate Z. }
  pose proof (generate_text_raises state district block year metric_desc value unit) as G.
  destruct (Unified.generate_text _ _ _ _ _ _ _) as [text|e]; cbn [bind ret raises] in *.
  - split; [discriminate|]. intros [[b ->]| ->]; discriminate G.
  - split; [intros _|reflexivity].
    destruct value as [|b|z|f|v|kvs|l]; try discriminate G.
    destruct f as [neg m e'|b|]; [|left; now exists b|now right].
    cbn in G. destruct (fin_ratio m e'). cbn in G. destruct (feq_Z _ _); discriminate G.
Qed.

Lemma emit_facts_length state district block year source source_type categorization
    (metrics : list Unified.metric_row) : forall facts,
  Unified.emit_facts state district block year source source_type categorization metrics
  = Ok facts ->
  (length facts <= length metrics)%nat.
Proof.
  induction metrics as [|m rest IH]; intros facts; cbn [Unified.emit_facts].
  - intros [= <-]. apply le_n.
  - destruct (Unified.create_record _ _ _ _ _ _ _ _ _ _ _ _) as [rec|e]; [|discriminate].
    cbn [bind].
    destruct (Unified.emit_facts _ _ _ _ _ _ _ rest) as [facts'|e]; [|discriminate].
    cbn [bind ret]. specialize (IH facts' eq_refl).
    destruct rec as [r|]; [destruct (truthy r)|]; intros [= <-]; cbn [length]; lia.
Qed.

Lemma create_record_not_suppressed state district block year metric value unit category
    source source_type metric_desc categorization r :
  Unified.create_record state district block year metric value unit category source
                        source_type metric_desc categorization = Ok (Some r) ->
  Unified.is_blank value = false
  /\ (Unified.is_zero value = true -> Unified.keeps_zero metric = true).
Proof.
  unfold Unified.create_record.
  destruct (Unified.is_blank value); [discriminate|].
  destruct (Unified.is_zero value); cbn [andb].
  - destruct (Unified.keeps_zero metric); [now split|discriminate].
  - intros _. split; [reflexivity|discriminate].
Qed.

(** X6: the facts yielded for a list of metrics are at most as many as
    the metrics, and each one carries the metric name and the value of a
    row of the list, a value that is neither [None] nor a blank string
    and that is a zero only under an always-keep metric. *)
Theorem emit_facts_sound
    (state district block year : pyval) (source source_type : string)
    (categorization : pyval) (metrics : list Unified.metric_row) (facts : list pyval) :
  Unified.emit_facts state district block year source source_type categorization metrics
  = Ok facts ->
  (length facts <= length metrics)%nat
  /\ Forall (fun f =>
       exists m, In m metrics
                 /\ dict_get f "metric" = PStr (Unified.m_metric m)
                 /\ dict_get f "value" = Unified.m_value m
                 /\ Unified.is_blank (Unified.m_value m) = false
                 /\ (Unified.is_zero (Unified.m_value m) = true ->
                     Unified.keeps_zero (Unified.m_metric m) = true))
            facts.
Proof.
  intros H. split; [now apply emit_facts_length in H|].
  apply Forall_forall. intros f F.
  apply (emit_facts_in _ _ _ _ _ _ _ _ _ H) in F. destruct F as (m & I & C).
  exists m. destruct (create_record_some _ _ _ _ _ _ _ _ _ _ _ _ _ C) as (M & V & _).
  destruct (create_record_not_suppressed _ _ _ _ _ _ _ _ _ _ _ _ _ C) as (B & Z).
  repeat split; assumption.
Qed.

Lemma emit_facts_sound_witness :
  exists facts,
    Unified.emit_facts (PStr "Kerala") PNone PNone (PStr "2023-2024")
      "attribute_reports/a.json" "attribute_summary" PNone
      [ Unified.mk_metric "safe_units_count" (PFloat zero) "count"
          "categorization_summary" "safe groundwater units";
        Unified.mk_metric "total_assessed_units_count" (PInt 152) "count"
          "categorization_summary" "total assessed groundwater units";
        Unified.mk_metric "categorization_status" (PStr "  ") "" "status"
          "groundwater status category" ] = Ok facts
    /\ length facts = 1%nat
    /\ (length facts <= 3)%nat.
Proof.
  eexists. split; [vm_compute; reflexivity|]. split; [reflexivity|].
  refine (proj1 (emit_facts_sound (PStr "Kerala") PNone PNone (PStr "2023-2024")
                   "attribute_reports/a.json" "attribute_summary" PNone
                   [ Unified.mk_metric "safe_units_count" (PFloat zero) "count"
                       "categorization_summary" "safe groundwater units";
                     Unified.mk_metric "total_assessed_units_count" (PInt 152) "count"
                       "categorization_summary" "total assessed groundwater units";
                     Unified.mk_metric "categorization_status" (PStr "  ") "" "status"
                       "groundwater status category" ] _ _)).
  vm_compute. reflexivity.
Defined.

(** *** Identity: what is hashed *)

Lemma split_at_separator (c : ascii) (a : string) : forall b ta tb,
  lacks c a = true -> lacks c b = true ->
  (ta = "" \/ exists t, ta = String c t) ->
  (tb = "" \/ exists t, tb = String c t) ->
  a ++ ta = b ++ tb -> a = b /\ ta = tb.
Proof.
  induction a as [|x a IH]; intros [|y b] ta tb A B Ta Tb E; cbn [append] in E.
  - now split.
  - exfalso. cbn in B. apply andb_true_iff in B. destruct B as [B _].
    destruct Ta as [->|[t ->]]; [discriminate|]. injection E as -> _.
    now rewrite Ascii.eqb_refl in B.
  - exfalso. cbn in A. apply andb_true_iff in A. destruct A as [A _].
    destruct Tb as [->|[t ->]]; [discriminate|]. injection E as -> _.
    now rewrite Ascii.eqb_refl in A.
  - injection E as -> E. cbn in A, B.
    apply andb_true_iff in A. apply andb_true_iff in B.
    destruct (IH b ta tb (proj2 A) (proj2 B) Ta Tb E) as [-> ->]. now split.
Qed.

Lemma join_injective (c : ascii) (l1 : list string) : forall l2,
  length l1 = length l2 ->
  Forall (fun p => lacks c p = true) l1 ->
  Forall (fun p => lacks c p = true) l2 ->
  join (String c "") l1 = join (String c "") l2 -> l1 = l2.
Proof.
  induction l1 as [|p l1 IH]; intros [|q l2] L F1 F2 E; try discriminate L.
  - reflexivity.
  - injection L as L. inversion F1 as [|? ? P1 R1]. inversion F2 as [|? ? P2 R2].
    subst. rewrite !join_cons in E.
    apply (split_at_separator c) in E; try assumption.
    + destruct E as [-> E]. f_equal. destruct l1 as [|p1 l1], l2 as [|q1 l2];
        try discriminate L; [reflexivity|].
      cbn [append] in E. injection E as E. now apply IH.
    + destruct l1; [now left|right; now eexists].
    + destruct l2; [now left|right; now eexists].
Qed.

(** X7: the text hashed by the chunker's [generate_id] determines the
    parts: two tuples of the same length whose parts, once [None] and
    the empty string are replaced by [_NULL_], hold no [|], are hashed
    as the same text only when they agree part by part. *)
Theorem chunk_id_content_injective (parts1 parts2 : list pyval) :
  length parts1 = length parts2 ->
  Forall (fun p => lacks "|" (Chunker.normalize_part p) = true) parts1 ->
  Forall (fun p => lacks "|" (Chunker.normalize_part p) = true) parts2 ->
  Chunker.id_content parts1 = Chunker.id_content parts2 ->
  map Chunker.normalize_part parts1 = map Chunker.normalize_part parts2.
Proof.
  intros L F1 F2 E. apply (join_injective "|"); try assumption.
  - now rewrite !length_map.
  - now apply Forall_map.
  - now apply Forall_map.
Qed.

Lemma chunk_id_content_injective_witness :
  map Chunker.normalize_part [PStr "Kerala"; PNone; PStr "B"; PInt 7]
  = map Chunker.normalize_part [PStr "Kerala"; PStr ""; PStr "B"; PStr "7"].
Proof.
  apply chunk_id_content_injective.
  - reflexivity.
  - repeat constructor.
  - repeat constructor.
  - reflexivity.
Defined.

(** *** Nested look-ups *)



(** *** What [str] writes for a number *)

Lemma all_chars_app P a b : all_chars P (a ++ b) = all_chars P a && all_chars P b.
Proof.
  induction a as [|c a IH]; cbn [append all_chars]; [reflexivity|].
  now rewrite IH, andb_assoc.
Qed.

Lemma all_chars_weaken (P Q : ascii -> bool) s :
  (forall c, P c = true -> Q c = true) -> all_chars P s = true -> all_chars Q s = true.
Proof.
  intros W. induction s as [|c s IH]; cbn [all_chars]; [trivial|].
  rewrite !andb_true_iff. intros [A B]. split; [now apply W|now apply IH].
Qed.

Lemma all_chars_substring P s : forall n m,
  all_chars P s = true -> all_chars P (substring n m s) = true.
Proof.
  induction s as [|c s IH]; intros n m H.
  - destruct n, m; reflexivity.
  - cbn [all_chars] in H. apply andb_true_iff in H. destruct H as [A B].
    destruct n as [|n]; cbn [substring].
    + destruct m as [|m]; [reflexivity|]. cbn [all_chars]. rewrite A. now apply IH.
    + now apply IH.
Qed.

Lemma all_chars_repeat P c n : P c = true -> all_chars P (repeat_char c n) = true.
Proof. intros H. induction n as [|n IH]; cbn; [reflexivity|now rewrite H, IH]. Qed.

Lemma digits_of_uint d : all_chars is_digit (NilEmpty.string_of_uint d) = true.
Proof. induction d; cbn; try reflexivity; exact IHd. Qed.

Lemma digits_of_uint0 d : all_chars is_digit (NilZero.string_of_uint d) = true.
Proof. destruct d; try reflexivity; apply (digits_of_uint (_ d)). Qed.

Lemma digits_of_N n : all_chars is_digit (str_of_N n) = true.
Proof. apply digits_of_uint0. Qed.

Lemma digit_is_number_char c : is_digit c = true -> number_char c = true.
Proof. unfold number_char. now intros ->. Qed.

Lemma number_chars_of_Z z : all_chars number_char (str_of_Z z) = true.
Proof.
  unfold str_of_Z, NilZero.string_of_int. destruct (Z.to_int z) as [d|d].
  - apply all_chars_weaken with (1 := digit_is_number_char), digits_of_uint0.
  - cbn [all_chars]. apply andb_true_iff. split; [reflexivity|].
    apply all_chars_weaken with (1 := digit_is_number_char), digits_of_uint0.
Qed.

Lemma number_chars_pad2 n : all_chars number_char (pad2 n) = true.
Proof.
  unfold pad2. destruct (n <? 10); [cbn [append all_chars]|]; rewrite ?number_chars_of_Z;
    reflexivity.
Qed.

Lemma number_chars_repr_exp x : all_chars number_char (repr_exp x) = true.
Proof.
  unfold repr_exp. rewrite all_chars_app, number_chars_pad2.
  now destruct (x <? 0).
Qed.

Lemma number_chars_float_repr f : all_chars number_char (float_repr f) = true.
Proof.
  assert (D : forall n, all_chars number_char (str_of_N n) = true).
  { intros n. apply all_chars_weaken with (1 := digit_is_number_char), digits_of_N. }
  destruct f as [neg m e|[]|]; try reflexivity. unfold float_repr.
  assert (S : all_chars number_char (if neg then "-" else "") = true)
    by now destruct neg.
  destruct (m =? 0)%N; [now rewrite all_chars_app, S|].
  cbv zeta. specialize (D m).
  destruct (_ || _).
  - pose proof (number_chars_repr_exp (Z.of_nat (String.length (str_of_N m)) + e - 1))
      as X.
    destruct (str_of_N m) as [|d [|d' rest']]; [exact S| |];
      cbn [all_chars] in D; rewrite ?andb_true_iff in D;
      repeat (rewrite ?all_chars_app; cbn [all_chars append]).
    + destruct D as [D1 _]. now rewrite S, D1, X.
    + destruct D as (D1 & D2 & D3). now rewrite S, D1, D2, D3, X.
  - destruct (_ <=? 0).
    + rewrite !all_chars_app, S, D. cbn [all_chars andb].
      now rewrite all_chars_repeat.
    + destruct (_ <=? _).
      * rewrite !all_chars_app, S, D, all_chars_repeat; reflexivity.
      * rewrite !all_chars_app, S, !all_chars_substring; [reflexivity|exact D|exact D].
Qed.

Lemma all_chars_strip P s : all_chars P s = true -> all_chars P (strip s) = true.
Proof.
  destruct (strip_trimmed s) as (l & r & E & _). intros H. rewrite E in H.
  rewrite !all_chars_app, !andb_true_iff in H. tauto.
Qed.

(** The trimmed text of an [int] or a [float] is made of the characters
    of numbers. *)
Lemma number_text v :
  match v with PInt _ | PFloat _ => True | _ => False end ->
  all_chars number_char (strip (py_str v)) = true.
Proof.
  intros N. apply all_chars_strip.
  destruct v as [| |z|f| | |]; try contradiction;
    [apply number_chars_of_Z|apply number_chars_float_repr].
Qed.

(** *** State reports: rows that give no record *)

(** A first cell that reads as a float is never the text [Total]: the
    test on [safe_str(row[0])] cannot reject a row. *)
Lemma total_test_never_fires r0 :
  is_ok (py_float r0) -> eq_str (StateReport.safe_str r0) "Total" = false.
Proof.
  intros [f F]. destruct r0 as [|[]|z|x|s|kvs|l]; try discriminate F; try reflexivity.
  - unfold StateReport.safe_str. destruct (_ || _); [reflexivity|]. cbn [eq_str].
    apply String.eqb_neq. intros E.
    pose proof (number_text (PInt z) I) as A. rewrite E in A. discriminate A.
  - unfold StateReport.safe_str. destruct (_ || _); [reflexivity|]. cbn [eq_str].
    apply String.eqb_neq. intros E.
    pose proof (number_text (PFloat x) I) as A. rewrite E in A. discriminate A.
  - unfold StateReport.safe_str. destruct (_ || _); [reflexivity|]. cbn [eq_str py_str].
    apply String.eqb_neq. intros E. cbn [py_float] in F.
    rewrite (StateReportFacts.total_not_float s E) in F. discriminate F.
Qed.

(** X9: [parse_row_to_record] returns [None] exactly for a row of fewer
    than ten cells and for a row whose first cell is falsy or does not
    read as a float; the later test for a [Total] row never decides. *)
Theorem parse_row_to_record_none_iff (row : list pyval) (state_name year : string) :
  StateReport.parse_row_to_record row state_name year = Ok None
  <-> len row < 10
      \/ exists r0, nth_error row 0 = Some r0
                    /\ (truthy r0 = false \/ py_float r0 = Raise ValueError
                        \/ py_float r0 = Raise TypeError).
Proof.
  unfold StateReport.parse_row_to_record.
  destruct row as [|r0 row'].
  { cbn. split; [intros _; left; reflexivity|reflexivity]. }
  cbn [orb]. destruct (len (r0 :: row') <? 10) eqn:L.
  { apply Z.ltb_lt in L. split; [now left|reflexivity]. }
  apply Z.ltb_ge in L. cbn [index nth_error bind].
  destruct (truthy r0) eqn:T; cbn [negb].
  2:{ split; [|reflexivity]. intros _. right. exists r0. split; [reflexivity|now left]. }
  destruct (py_float_cases r0) as [[serial E]|[E|E]]; rewrite E.
  - rewrite (total_test_never_fires r0); [|now exists serial].
    destruct (dict_of _) as [j|e]; cbn [bind ret]; (split; [discriminate|]);
      (intros [C|(r & [= <-] & [C|[C|C]])]; [lia|congruence..]).
  - split; [|reflexivity]. intros _. right. exists r0. split; [reflexivity|tauto].
  - split; [|reflexivity]. intros _. right. exists r0. split; [reflexivity|tauto].
Qed.

(** X10: a record returned by [parse_row_to_record] takes its state from
    the second cell, or from the file name when that cell is empty, its
    district and assessment unit from the third and fourth cells and its
    year from the argument; with a non-empty state from the file name the
    state of the record is a non-empty string. *)
Theorem parsed_record_identity (row : list pyval) (state_name year : string)
    (r : pyval) :
  StateReport.parse_row_to_record row state_name year = Ok (Some r) ->
  exists c1 c2 c3,
    nth_error row 1 = Some c1 /\ nth_error row 2 = Some c2 /\ nth_error row 3 = Some c3
    /\ dict_get r "state" = py_or (StateReport.safe_str c1) (PStr state_name)
    /\ dict_get r "district" = StateReport.safe_str c2
    /\ dict_get r "assessment_unit" = StateReport.safe_str c3
    /\ dict_get r "year" = PStr year
    /\ (state_name <> "" -> exists s, dict_get r "state" = PStr s /\ s <> "").
Proof.
  unfold StateReport.parse_row_to_record. destruct (_ || _); [discriminate|].
  destruct (index row 0) as [r0|e]; [|discriminate]. cbn [bind].
  destruct (negb (truthy r0)); [discriminate|].
  destruct (py_float r0) as [serial|[]]; try discriminate.
  destruct (eq_str _ _); [discriminate|].
  destruct (dict_of _) as [j|e] eqn:D; [|discriminate].
  cbn [bind ret]. intros [= <-]. apply dict_of_inv in D. destruct D as (kvs & D & ->).
  unfold StateReport.record_entries in D.
  apply eval_entries_cons in D. destruct D as (v1 & k1 & _ & D & ->).
  apply eval_entries_cons in D. destruct D as (v2 & k2 & E2 & D & ->).
  apply eval_entries_cons in D. destruct D as (v3 & k3 & E3 & D & ->).
  apply eval_entries_cons in D. destruct D as (v4 & k4 & E4 & D & ->).
  apply eval_entries_cons in D. destruct D as (v5 & k5 & _ & D & ->).
  apply eval_entries_cons in D. destruct D as (v6 & k6 & E6 & _ & ->).
  unfold index in E2, E3, E4.
  destruct (nth_error row 1) as [c1|] eqn:N1; [|discriminate].
  destruct (nth_error row 2) as [c2|] eqn:N2; [|discriminate].
  destruct (nth_error row 3) as [c3|] eqn:N3; [|discriminate].
  cbn in E2, E3, E4, E6. injection E2 as <-. injection E3 as <-.
  injection E4 as <-. injection E6 as <-.
  exists c1, c2, c3. do 7 (split; [reflexivity|]).
  intros N. change (dict_get (PDict _) "state")
    with (py_or (StateReport.safe_str c1) (PStr state_name)).
  unfold py_or. destruct (truthy (StateReport.safe_str c1)) eqn:T.
  - destruct (StateReportFacts.safe_str_truthy c1 T) as (s & -> & Ns). now exists s.
  - cbn in T. now exists state_name.
Qed.

Lemma parsed_record_identity_witness :
  exists r,
    StateReport.parse_row_to_record
      (PInt 3 :: PStr " " :: tl (tl inf_row)) "Kerala" "2023-2024" = Ok (Some r)
    /\ dict_get r "state" = PStr "Kerala"
    /\ dict_get r "district" = PStr "DistrictY".
Proof.
  eexists. split; [vm_compute; reflexivity|].
  destruct (parsed_record_identity (PInt 3 :: PStr " " :: tl (tl inf_row))
              "Kerala" "2023-2024" _ ltac:(vm_compute; reflexivity))
    as (c1 & c2 & c3 & [= <-] & [= <-] & _ & S & D & _).
  split; [exact S|exact D].
Defined.

Lemma extract_loop_spec rows state year : forall acc records,
  StateReport.extract_loop rows state year acc = Ok records
  <-> exists parsed,
        Forall2 (fun row p => StateReport.parse_row_to_record row state year = Ok p)
                rows parsed
        /\ records = (acc ++ StateReport.kept_records parsed)%list.
Proof.
  induction rows as [|row rows IH]; intros acc records; cbn [StateReport.extract_loop].
  - split.
    + intros [= <-]. exists []. split; [constructor|]. cbn. now rewrite app_nil_r.
    + intros (parsed & F & ->). inversion F. cbn. now rewrite app_nil_r.
  - destruct (StateReport.parse_row_to_record row state year) as [p|e] eqn:P; cbn [bind].
    + set (acc' := match p with
                   | Some r => if truthy r && truthy (dict_get r "district")
                               then list_append acc r else acc
                   | None => acc
                   end).
      assert (K : forall parsed,
                 (acc ++ StateReport.kept_records (p :: parsed))%list
                 = (acc' ++ StateReport.kept_records parsed)%list).
      { intros parsed. unfold acc', StateReport.kept_records. cbn [flat_map].
        destruct p as [r|]; [|reflexivity].
        destruct (_ && _); [|reflexivity].
        unfold list_append. now rewrite <- app_assoc. }
      assert (S : match p with
                  | Some r =>
                      if truthy r && truthy (dict_get r "district")
                      then StateReport.extract_loop rows state year (list_append acc r)
                      else StateReport.extract_loop rows state year acc
                  | None => StateReport.extract_loop rows state year acc
                  end = StateReport.extract_loop rows state year acc').
      { unfold acc'. destruct p as [r|]; [destruct (_ && _)|]; reflexivity. }
      rewrite S, IH. split.
      * intros (parsed & F & ->). exists (p :: parsed).
        split; [now constructor|]. symmetry. apply K.
      * intros (parsed & F & ->). inversion F as [|? p' ? parsed' P' F']. subst.
        rewrite P in P'. injection P' as <-. exists parsed'. split; [exact F'|apply K].
    + split; [discriminate|]. intros (parsed & F & _).
      inversion F. subst. congruence.
Qed.

(** X11: [extract_state_report] returns exactly the records of the rows
    that parse to a record with a district, in the order of the rows,
    and it returns at all exactly when no row makes the parser raise. *)
Theorem extract_state_report_spec (state year : string) (rows : list (list pyval))
    (records : list pyval) :
  StateReport.extract_state_report state year rows = Ok records
  <-> exists parsed,
        Forall2 (fun row p => StateReport.parse_row_to_record row state year = Ok p)
                rows parsed
        /\ records = StateReport.kept_records parsed.
Proof. unfold StateReport.extract_state_report. apply extract_loop_spec. Qed.

(** *** State reports: the four-facet and two-facet groups *)




(** *** Years in file names *)

Lemma take_digits_spec n : forall s d r,
  take_digits n s = Some (d, r) ->
  s = d ++ r /\ String.length d = n /\ all_chars is_digit d = true.
Proof.
  induction n as [|n IH]; intros s d r; cbn [take_digits].
  - intros [= <- <-]. now repeat split.
  - destruct s as [|c s]; [discriminate|]. destruct (is_digit c) eqn:D; [|discriminate].
    destruct (take_digits n s) as [[d' r']|] eqn:T; [|discriminate].
    intros [= <- <-]. destruct (IH _ _ _ T) as (-> & L & A).
    cbn. rewrite L, D, A. now repeat split.
Qed.

Lemma take_digits_upto_spec n : forall s d r,
  take_digits_upto n s = (d, r) ->
  (String.length d <= n)%nat /\ all_chars is_digit d = true.
Proof.
  induction n as [|n IH]; intros s d r; cbn [take_digits_upto].
  - intros [= <- <-]. split; [apply le_n|reflexivity].
  - destruct s as [|c s]; [intros [= <- <-]; split; [apply Nat.le_0_l|reflexivity]|].
    destruct (is_digit c) eqn:D;
      [|intros [= <- <-]; split; [apply Nat.le_0_l|reflexivity]].
    destruct (take_digits_upto n s) as [d' r'] eqn:T. intros [= <- <-].
    destruct (IH _ _ _ T) as (L & A). cbn. rewrite D, A. split; [lia|reflexivity].
Qed.

Lemma search_found {A : Type} (here : string -> option A) s m :
  search here s = Some m -> exists t, here t = Some m.
Proof.
  induction s as [|c s IH]; cbn [search].
  - destruct (here "") eqn:H; [intros [= <-]; now exists ""|discriminate].
  - destruct (here (String c s)) eqn:H; [intros [= <-]; now exists (String c s)|exact IH].
Qed.

Lemma year_range_here_shaped k s year :
  StateReport.year_range_here k s = Some year -> year_shaped 4 k year.
Proof.
  unfold StateReport.year_range_here.
  destruct (take_digits 4 s) as [[y1 rest]|] eqn:T1; [|discriminate].
  destruct rest as [|c r]; [discriminate|].
  destruct c as [[] [] [] [] [] [] [] []]; try discriminate.
  destruct (take_digits k r) as [[y2 r2]|] eqn:T2; [|discriminate].
  intros [= <-]. destruct (take_digits_spec _ _ _ _ T1) as (_ & L1 & A1).
  destruct (take_digits_spec _ _ _ _ T2) as (_ & L2 & A2).
  now exists y1, y2.
Qed.

Lemma length_4 s :
  String.length s = 4%nat ->
  exists a b c d, s = String a (String b (String c (String d ""))).
Proof.
  destruct s as [|a [|b [|c [|d [|e s]]]]]; try discriminate.
  intros _. now exists a, b, c, d.
Qed.

Lemma length_2 s :
  String.length s = 2%nat -> exists a b, s = String a (String b "").
Proof.
  destruct s as [|a [|b [|c s]]]; try discriminate. intros _. now exists a, b.
Qed.

Lemma widen_year_shaped year :
  year_shaped 4 4 year \/ year_shaped 4 2 year ->
  year_shaped 4 4 (StateReport.widen_year year).
Proof.
  unfold StateReport.widen_year.
  intros [(y1 & y2 & -> & L1 & A1 & L2 & A2)|(y1 & y2 & -> & L1 & A1 & L2 & A2)];
    destruct (length_4 _ L1) as (a & b & c & d & ->).
  - destruct (length_4 _ L2) as (a' & b' & c' & d' & ->). cbn.
    now exists (String a (String b (String c (String d "")))),
               (String a' (String b' (String c' (String d' "")))).
  - destruct (length_2 _ L2) as (a' & b' & ->). cbn.
    exists (String a (String b (String c (String d "")))),
           (String "2" (String "0" (String a' (String b' "")))).
    split; [reflexivity|]. split; [reflexivity|]. split; [exact A1|].
    split; [reflexivity|]. cbn in A2 |- *. exact A2.
Qed.

(** X13: [extract_year_from_filename] of the state-report script gives
    [unknown] or four digits, a dash and four digits; a two-digit end
    year comes back with [20] before it. *)
Theorem state_year_of_filename (filename : string) :
  StateReport.extract_year_from_filename filename = "unknown"
  \/ year_shaped 4 4 (StateReport.extract_year_from_filename filename).
Proof.
  unfold StateReport.extract_year_from_filename.
  destruct (search (StateReport.year_range_here 4) filename) as [year|] eqn:S4.
  - right. apply widen_year_shaped. left.
    destruct (search_found _ _ _ S4) as [t H]. now apply year_range_here_shaped in H.
  - destruct (search (StateReport.year_range_here 2) filename) as [year|] eqn:S2;
      [|now left].
    right. apply widen_year_shaped. right.
    destruct (search_found _ _ _ S2) as [t H]. now apply year_range_here_shaped in H.
Qed.

(** X14: [extract_year_from_filename] of the central/annexure script
    gives [unknown] or four digits, a dash and three or four digits: a
    two-digit end year is widened with [20], a three-digit one is kept
    as it is. *)
Theorem central_year_of_filename (filename : string) :
  Central.extract_year_from_filename filename = "unknown"
  \/ year_shaped 4 3 (Central.extract_year_from_filename filename)
  \/ year_shaped 4 4 (Central.extract_year_from_filename filename).
Proof.
  unfold Central.extract_year_from_filename.
  destruct (search Central.year_pair_here filename) as [[year1 year2]|] eqn:S;
    [|now left].
  right. destruct (search_found _ _ _ S) as [t H].
  unfold Central.year_pair_here in H.
  destruct (take_digits 4 t) as [[y1 rest]|] eqn:T; [|discriminate].
  destruct (take_digits_spec _ _ _ _ T) as (_ & L1 & A1).
  assert (G : forall r,
             (let '(y2, _) := take_digits_upto 4 r in
              if (2 <=? String.length y2)%nat then Some (y1, y2) else None)
             = Some (year1, year2) ->
             year1 = y1 /\ (2 <= String.length year2 <= 4)%nat
             /\ all_chars is_digit year2 = true).
  { intros r. destruct (take_digits_upto 4 r) as [y2 r2] eqn:U.
    destruct (take_digits_upto_spec _ _ _ _ U) as (L & A).
    destruct (2 <=? String.length y2)%nat eqn:B; [|discriminate].
    intros [= <- <-]. apply Nat.leb_le in B. now repeat split. }
  assert (Y : year1 = y1 /\ (2 <= String.length year2 <= 4)%nat
              /\ all_chars is_digit year2 = true).
  { cbv zeta in H. destruct rest as [|c r]; [now apply (G "")|].
    destruct (_ || _); [|now apply (G (String c r))].
    destruct (take_digits_upto 4 r) as [y2 r2] eqn:U.
    destruct (2 <=? String.length y2)%nat eqn:B.
    - apply (G r). now rewrite U, B.
    - now apply (G (String c r)). }
  destruct Y as (-> & L2 & A2).
  destruct (String.length year2 =? 2)%nat eqn:E2.
  - right. apply Nat.eqb_eq in E2. destruct (length_2 _ E2) as (a & b & ->).
    exists y1, (String "2" (String "0" (String a (String b "")))).
    split; [reflexivity|]. split; [exact L1|]. split; [exact A1|].
    split; [reflexivity|]. cbn in A2 |- *. exact A2.
  - apply Nat.eqb_neq in E2.
    destruct (Nat.eq_dec (String.length year2) 3) as [E3|E3].
    + left. now exists y1, year2.
    + right. exists y1, year2. repeat split; try assumption. lia.
Qed.

(** *** What [float] accepts *)

Lemma consumed_refl s : consumed s s.
Proof. now exists "". Qed.

Lemma consumed_cons c s rest :
  decimal_char c = true -> consumed s rest -> consumed (String c s) rest.
Proof.
  intros D (pre & -> & A). exists (String c pre). cbn. now rewrite D, A.
Qed.

Lemma consumed_all s : consumed s "" -> all_chars decimal_char s = true.
Proof. intros (pre & -> & A). now rewrite append_empty_r. Qed.

Lemma digit_is_decimal_char c : is_digit c = true -> decimal_char c = true.
Proof. unfold decimal_char. now intros ->. Qed.

Lemma scan_digits_consumed (k : nat) : forall s acc n m j rest,
  (String.length s <= k)%nat ->
  scan_digits s acc n = (m, j, rest) -> consumed s rest.
Proof.
  induction k as [|k IH]; intros s acc n m j rest L.
  - destruct s; [|exfalso; cbn in L; lia]. cbn. intros [= _ _ <-]. apply consumed_refl.
  - destruct s as [|c s]; [cbn; intros [= _ _ <-]; apply consumed_refl|].
    cbn in L. cbn [scan_digits]. destruct (is_digit c) eqn:D.
    + intros H. apply consumed_cons; [now apply digit_is_decimal_char|].
      refine (IH _ _ _ _ _ _ _ H); lia.
    + destruct (Ascii.eqb c "_") eqn:U; [|intros [= _ _ <-]; apply consumed_refl].
      apply Ascii.eqb_eq in U. subst c.
      destruct s as [|d s]; [intros [= _ _ <-]; apply consumed_refl|].
      destruct (is_digit d) eqn:D'; [|intros [= _ _ <-]; apply consumed_refl].
      intros H. apply consumed_cons; [reflexivity|].
      apply consumed_cons; [now apply digit_is_decimal_char|].
      cbn in L. refine (IH _ _ _ _ _ _ _ H); lia.
Qed.

Lemma digitpart_consumed acc s m j rest :
  digitpart acc s = Some (m, j, rest) -> consumed s rest.
Proof.
  unfold digitpart. destruct s as [|c s]; [discriminate|].
  destruct (is_digit c) eqn:D; [|discriminate]. intros [= H].
  apply consumed_cons; [now apply digit_is_decimal_char|].
  now apply (scan_digits_consumed (String.length s)) in H.
Qed.

Lemma read_sign_cases s neg body :
  read_sign s = (neg, body) -> s = body \/ s = String "-" body \/ s = String "+" body.
Proof.
  unfold read_sign. destruct s as [|c s]; [intros [= _ <-]; now left|].
  destruct c as [[] [] [] [] [] [] [] []]; intros [= _ <-]; tauto.
Qed.

Lemma read_exponent_chars s x :
  read_exponent s = Some x -> all_chars decimal_char s = true.
Proof.
  unfold read_exponent. destruct s as [|c s]; [reflexivity|].
  destruct (Ascii.eqb c "e" || Ascii.eqb c "E") eqn:E; [|discriminate].
  destruct (read_sign s) as [neg s1] eqn:S.
  destruct (digitpart 0 s1) as [[[m j] rest]|] eqn:D; [|discriminate].
  destruct rest; [|discriminate]. intros _.
  apply digitpart_consumed, consumed_all in D.
  cbn [all_chars]. apply andb_true_iff. split.
  - unfold decimal_char. apply orb_true_iff in E.
    destruct E as [E|E]; apply Ascii.eqb_eq in E; subst c; reflexivity.
  - destruct (read_sign_cases _ _ _ S) as [ -> | [ -> | -> ] ]; cbn [all_chars];
      now rewrite ?D.
Qed.

Lemma read_fraction_chars m have_int s r :
  read_fraction m have_int s = Some r -> all_chars decimal_char s = true.
Proof.
  unfold read_fraction.
  assert (X : forall t, match read_exponent t with
                        | Some x => Some (m, x)
                        | None => None
                        end = Some r -> all_chars decimal_char t = true).
  { intros t. destruct (read_exponent t) eqn:E; [|discriminate].
    intros _. now apply read_exponent_chars in E. }
  destruct s as [|c s]; [destruct have_int; [apply X|discriminate]|].
  destruct (Ascii.eqb c ".") eqn:P.
  - apply Ascii.eqb_eq in P. subst c.
    destruct (digitpart m s) as [[[m' k] rest]|] eqn:D.
    + destruct (read_exponent rest) eqn:E; [|discriminate]. intros _.
      apply read_exponent_chars in E. destruct (digitpart_consumed _ _ _ _ _ D)
        as (pre & -> & A).
      cbn [all_chars]. now rewrite all_chars_app, A, E.
    + destruct have_int; [|discriminate]. intros H. apply X in H.
      cbn [all_chars]. now rewrite H.
  - assert (N : c <> "."%char) by now apply Ascii.eqb_neq.
    destruct c as [[] [] [] [] [] [] [] []]; try (now elim N);
      (destruct have_int; [apply X|discriminate]).
Qed.

Lemma read_number_chars s r :
  read_number s = Some r -> all_chars decimal_char s = true.
Proof.
  unfold read_number. destruct (digitpart 0 s) as [[[m k] rest]|] eqn:D.
  - intros H. apply read_fraction_chars in H.
    destruct (digitpart_consumed _ _ _ _ _ D) as (pre & -> & A).
    now rewrite all_chars_app, A, H.
  - apply read_fraction_chars.
Qed.

Lemma lacks_lower s : lacks "," (lower s) = lacks "," s.
Proof.
  unfold lower. induction s as [|c s IH]; cbn [map_string lacks]; [reflexivity|].
  rewrite IH. f_equal. f_equal. all_ascii c.
Qed.

Lemma decimal_lacks_comma s : all_chars decimal_char s = true -> lacks "," s = true.
Proof.
  induction s as [|c s IH]; cbn [all_chars lacks]; [reflexivity|].
  rewrite andb_true_iff. intros [D A]. rewrite (IH A), andb_true_r.
  destruct c as [[] [] [] [] [] [] [] []]; try reflexivity; discriminate D.
Qed.

(** A string that [float] accepts holds no comma. *)
Lemma float_text_lacks_comma s f :
  float_of_string s = Ok f -> lacks "," (strip s) = true.
Proof.
  unfold float_of_string. destruct (read_sign (strip s)) as [neg body] eqn:S.
  assert (B : lacks "," body = true -> lacks "," (strip s) = true).
  { destruct (read_sign_cases _ _ _ S) as [ -> | [ -> | -> ] ]; cbn [lacks]; now intros ->. }
  cbv zeta. destruct (_ || _) eqn:I.
  { intros _. apply B. rewrite <- lacks_lower. apply orb_true_iff in I.
    destruct I as [I|I]; apply String.eqb_eq in I; now rewrite I. }
  destruct (String.eqb (lower body) "nan") eqn:N.
  { intros _. apply B. rewrite <- lacks_lower. apply String.eqb_eq in N.
    now rewrite N. }
  destruct (read_number body) as [[m e]|] eqn:R; [|discriminate].
  intros _. apply B. apply read_number_chars in R. now apply decimal_lacks_comma.
Qed.

Lemma remove_char_lacks c s : lacks c s = true -> remove_char c s = s.
Proof.
  induction s as [|d s IH]; cbn [lacks remove_char]; [reflexivity|].
  rewrite andb_true_iff. intros [N L]. destruct (Ascii.eqb c d); [discriminate|].
  now rewrite (IH L).
Qed.

Lemma float_of_string_strip s : float_of_string (strip s) = float_of_string s.
Proof. unfold float_of_string. now rewrite strip_idem. Qed.

Lemma central_safe_float_of_float (value : pyval) (default f : pyfloat) :
  py_float value = Ok f -> Central.safe_float value default = Ok f.
Proof.
  intros H. destruct value as [|b|z|x|s|kvs|l]; try discriminate H; try exact H.
  cbn [py_float] in H. unfold Central.safe_float. cbn [is_none is_number py_str].
  cbv zeta. rewrite (remove_char_lacks _ _ (float_text_lacks_comma s f H)).
  destruct (str_in (strip s) Central.missing_tokens) eqn:T.
  - apply missing_token_not_float in T. rewrite float_of_string_strip in T. congruence.
  - now rewrite float_of_string_strip, H.
Qed.

(** X15: [safe_float] of the central/annexure script extends [float]:
    whatever [float(value)] reads, [safe_float(value)] reads the same,
    for every default. *)
Theorem central_safe_float_extends_float (value : pyval) (default f : pyfloat) :
  py_float value = Ok f -> Central.safe_float value default = Ok f.
Proof. apply central_safe_float_of_float. Qed.

Lemma central_safe_float_extends_float_witness :
  Central.safe_float (PStr " -1_250.5e-1 ") zero = Ok (FFin true 12505 (-2)).
Proof. apply central_safe_float_extends_float. reflexivity. Defined.

(** *** Sectioned sheets: what the records hold *)

Lemma scan_emits (P : pyval -> Prop) (body : nat -> pyval -> result Central.step) :
  (forall i st st' r, body i st = Ok (st', Some r) -> P r) ->
  forall n first st records st' records',
    Forall P records ->
    Central.scan body n first st records = Ok (st', records') ->
    Forall P records'.
Proof.
  intros B. induction n as [|n IH]; intros first st records st' records' F;
    cbn [Central.scan].
  - now intros [= _ <-].
  - destruct (body first st) as [[st1 emitted]|e] eqn:E; [|discriminate].
    cbn [bind]. apply IH. destruct emitted as [r|]; [|exact F].
    apply Forall_app. split; [exact F|]. constructor; [|constructor].
    now apply (B first st st1).
Qed.

(** X16: every record of sheet 3B has a float serial number that is not
    below 1, and a district that is a non-empty trimmed text other than
    the header and footer texts. *)
Theorem annexure3b_records_valid (ws : Central.sheet) (records : list pyval) :
  Central.extract_annexure3b ws = Ok records ->
  Forall (fun r =>
            (exists f, dict_get r "serial_no" = PFloat f /\ flt_Z f 1 = false)
            /\ exists d, dict_get r "district" = PStr d /\ d <> ""
                         /\ strip d = d
                         /\ str_in d Central.annexure3b_district_skips = false)
         records.
Proof.
  unfold Central.extract_annexure3b.
  destruct (Central.scan _ _ _ _ _) as [[st records']|e] eqn:S; [|discriminate].
  cbn [bind ret snd]. intros [= <-].
  apply (scan_emits _ _) with (3 := S); [|constructor].
  intros i k k' r H.
  destruct (annexure3b_row_emits ws i k k' r H) as (NS & TD & SK & TA & serial & PF & GE).
  unfold Central.annexure3b_row in H. cbv zeta in H. rewrite NS, TD, SK in H.
  cbn [negb orb] in H.
  destruct (Central.serial_skips _) as [[|]|e]; cbn [bind ret] in H; try discriminate.
  destruct (Central.annexure3b_record _ _ _ _ _) as [j|e] eqn:R; [|discriminate].
  cbn [bind ret] in H. injection H as _ <-.
  unfold Central.annexure3b_record in R.
  rewrite (central_safe_float_of_float _ zero _ PF) in R. cbn [bind ret] in R.
  apply dict_of_inv in R. destruct R as (kvs & R & ->).
  apply eval_entries_cons in R. destruct R as (v1 & k1 & [= <-] & R & ->).
  apply eval_entries_cons in R. destruct R as (v2 & k2 & _ & R & ->).
  apply eval_entries_cons in R. destruct R as (v3 & k3 & [= <-] & _ & ->).
  split; [now exists serial|].
  assert (D : Central.safe_str (Central.cell ws i 2) ""
              = strip (py_str (Central.cell ws i 2))).
  { unfold Central.safe_str. destruct (Central.cell ws i 2); try reflexivity.
    discriminate TD. }
  exists (strip (py_str (Central.cell ws i 2))).
  split; [unfold dict_get, dict_get_or; cbn [lookup String.eqb Ascii.eqb Bool.eqb];
          now rewrite D|].
  split; [|split; [apply strip_idem|exact SK]].
  intros E. rewrite E in SK. discriminate SK.
Qed.

Lemma annexure3b_records_valid_witness :
  exists records,
    Central.extract_annexure3b name_row_with_note = Ok records
    /\ Forall (fun r => exists f, dict_get r "serial_no" = PFloat f /\ flt_Z f 1 = false)
              records
    /\ length records = 1%nat.
Proof.
  eexists. split; [vm_compute; reflexivity|]. split; [|reflexivity].
  eapply Forall_impl;
    [|apply (annexure3b_records_valid name_row_with_note); vm_compute; reflexivity].
  intros r [H _]. exact H.
Defined.

(** X17: a sheet without a sentinel row is one section without a name:
    every record of the Annexure II scanner and of the 3B scanner then
    has the state [Unknown]. *)
Theorem no_sentinel_unknown (ws : Central.sheet) (year : string) :
  (forall i, (1 <= i <= Central.max_row ws)%nat ->
             Central.is_sentinel (Central.cell ws i 1) = false) ->
  (forall records, Central.extract_annexure2 ws year = Ok records ->
                   Forall (fun r => dict_get r "state" = PStr "Unknown") records)
  /\ (forall records, Central.extract_annexure3b ws = Ok records ->
                      Forall (fun r => dict_get r "state" = PStr "Unknown") records).
Proof.
  intros NS.
  assert (G : forall body records,
             Central.keeps_section ws body ->
             (out <- Central.scan body (Central.max_row ws) 1 PNone [] ;; ret (snd out))
             = Ok records ->
             Forall (fun r => dict_get r "state" = PStr "Unknown") records).
  { intros body records K.
    destruct (Central.scan _ _ _ _ _) as [[st records']|e] eqn:S; [|discriminate].
    cbn [bind ret snd]. intros [= <-].
    apply (scan_section ws body K) in S; [|intros i Hi; apply NS; lia].
    destruct S as (_ & new & -> & F). exact F. }
  split; intros records; apply G;
    [apply annexure2_keeps_section|apply annexure3b_keeps_section].
Qed.

Lemma no_sentinel_unknown_witness :
  exists records,
    Central.extract_annexure2 unnumbered_rows "2022-2023" = Ok records
    /\ length records = 3%nat
    /\ Forall (fun r => dict_get r "state" = PStr "Unknown") records.
Proof.
  eexists. split; [vm_compute; reflexivity|]. split; [reflexivity|].
  refine (proj1 (no_sentinel_unknown unnumbered_rows "2022-2023" _) _ _);
    [|vm_compute; reflexivity].
  intros i Hi. cbn in Hi.
  assert (C : i = 1%nat \/ i = 2%nat \/ i = 3%nat) by lia.
  destruct C as [ -> | [ -> | -> ] ]; reflexivity.
Defined.

Lemma scan_invariant (I P : pyval -> Prop) (body : nat -> pyval -> result Central.step) :
  (forall i st st' emitted,
      I st -> body i st = Ok (st', emitted) ->
      I st' /\ forall r, emitted = Some r -> P r) ->
  forall n first st records st' records',
    I st -> Forall P records ->
    Central.scan body n first st records = Ok (st', records') ->
    I st' /\ Forall P records'.
Proof.
  intros B. induction n as [|n IH]; intros first st records st' records' Ist F;
    cbn [Central.scan].
  - intros [= <- <-]. now split.
  - destruct (body first st) as [[st1 emitted]|e] eqn:E; [|discriminate].
    cbn [bind]. destruct (B first st st1 emitted Ist E) as [I1 Pe].
    apply IH; [exact I1|]. destruct emitted as [r|]; [|exact F].
    apply Forall_app. split; [exact F|]. constructor; [|constructor].
    now apply Pe.
Qed.

(** *** Annexure 4A and 4B: what the records hold *)

Lemma str_truthy s : truthy (PStr s) = true <-> s <> "".
Proof.
  cbn [truthy]. destruct (String.eqb_spec s ""); cbn [negb]; split; congruence.
Qed.

Lemma or_names_truthy a b c :
  truthy (py_or (py_or (PStr a) (PStr b)) (PStr c)) = true ->
  a <> "" \/ b <> "" \/ c <> "".
Proof.
  unfold py_or. destruct (truthy (PStr a)) eqn:A.
  - rewrite A. intros _. left. now apply str_truthy.
  - destruct (truthy (PStr b)) eqn:B.
    + intros _. right. left. now apply str_truthy.
    + intros C. right. right. now apply str_truthy.
Qed.

Lemma central_safe_str_truthy v :
  truthy v = true -> Central.safe_str v "" = strip (py_str v).
Proof. unfold Central.safe_str. now destruct v. Qed.

Lemma state_or_unknown_named st :
  st = PNone \/ (exists s, st = PStr s) ->
  exists s, Central.state_or_unknown st = PStr s /\ s <> "".
Proof.
  intros [ -> | [s ->] ].
  - now exists "Unknown".
  - unfold Central.state_or_unknown, py_or. destruct (truthy (PStr s)) eqn:T.
    + exists s. split; [reflexivity|]. now apply str_truthy.
    + now exists "Unknown".
Qed.

Lemma annexure4_row_step (marker key4 key6 key8 : string) (ws : Central.sheet)
    (i : nat) (st st' : pyval) (emitted : option pyval) :
  st = PNone \/ (exists s, st = PStr s) ->
  Central.annexure4_row marker key4 key6 key8 ws i st = Ok (st', emitted) ->
  (st' = PNone \/ exists s, st' = PStr s)
  /\ forall r, emitted = Some r -> Central.unit_record key4 key6 key8 r.
Proof.
  intros Ist. unfold Central.annexure4_row. cbv zeta.
  destruct (truthy (Central.cell ws i 1) && _).
  { destruct (_ && _); intros [= <- <-]; (split; [|discriminate]);
      [right; now eexists|exact Ist]. }
  destruct (truthy (Central.cell ws i 2)) eqn:TD; cbn [negb orb];
    [|intros [= <- <-]; split; [exact Ist|discriminate]].
  destruct (str_in _ Central.annexure4_district_skips) eqn:SK;
    [intros [= <- <-]; split; [exact Ist|discriminate]|].
  destruct (Central.serial_skips _) as [[|]|e]; cbn [bind ret]; try discriminate;
    [intros [= <- <-]; split; [exact Ist|discriminate]|].
  destruct (truthy (py_or _ _)) eqn:T; intros [= <- <-];
    (split; [exact Ist|]); [|discriminate].
  intros r [= <-].
  destruct (state_or_unknown_named st Ist) as (s & -> & Ns).
  rewrite (central_safe_str_truthy _ TD).
  exists s, (strip (py_str (Central.cell ws i 2))),
    (Central.safe_str (Central.cell ws i 4) ""),
    (Central.safe_str (Central.cell ws i 6) ""),
    (Central.safe_str (Central.cell ws i 8) "").
  split; [reflexivity|]. split; [exact Ns|].
  split; [intros E; rewrite E in SK; discriminate SK|].
  split; [apply strip_idem|]. split; [exact SK|].
  now apply or_names_truthy.
Qed.

Lemma annexure4_scan (marker key4 key6 key8 : string) (ws : Central.sheet)
    (records : list pyval) :
  (out <- Central.scan (Central.annexure4_row marker key4 key6 key8 ws)
                       (Central.max_row ws - 1) 2 PNone [] ;;
   ret (snd out)) = Ok records ->
  Forall (Central.unit_record key4 key6 key8) records.
Proof.
  destruct (Central.scan _ _ _ _ _) as [[st records']|e] eqn:S; [|discriminate].
  cbn [bind ret snd]. intros [= <-].
  refine (proj2 (scan_invariant (fun st => st = PNone \/ exists s, st = PStr s) _ _ _
                                _ _ _ _ _ _ _ _ S)).
  - intros i st0 st1 emitted. apply annexure4_row_step.
  - now left.
  - constructor.
Qed.

(** X18: every record of the sheets 4A and 4B is a [dict] of five texts:
    a state that is not empty ([Unknown] when no section has a name), a
    district that is a non-empty trimmed text other than the header and
    footer texts, and three unit names of which at least one is not
    empty. *)
Theorem annexure4_records_name_a_unit (ws : Central.sheet) (records : list pyval) :
  (Central.extract_annexure4a ws = Ok records ->
   Forall (Central.unit_record "semi_critical_unit" "critical_unit"
                               "over_exploited_unit") records)
  /\ (Central.extract_annexure4b ws = Ok records ->
      Forall (Central.unit_record "fluoride_affected_unit" "arsenic_affected_unit"
                                  "salinity_affected_unit") records).
Proof. split; apply annexure4_scan. Qed.

Lemma annexure4_records_name_a_unit_witness :
  exists records,
    Central.extract_annexure4a units_sheet = Ok records
    /\ map (fun r => (dict_get r "state", dict_get r "critical_unit")) records
       = [ (PStr "StateX", PStr "BlockZ") ]
    /\ Forall (Central.unit_record "semi_critical_unit" "critical_unit"
                                   "over_exploited_unit") records.
Proof.
  eexists. split; [vm_compute; reflexivity|]. split; [reflexivity|].
  refine (proj1 (annexure4_records_name_a_unit units_sheet _) _).
  vm_compute; reflexivity.
Defined.

(** *** The attribute report, from the sheet to the facts *)

Lemma float_cell_ok ws i c : is_ok (Central.float_cell ws i c).
Proof.
  unfold Central.float_cell.
  destruct (central_safe_float_ok (Central.cell ws i c) zero) as [f E].
  rewrite E. now eexists.
Qed.











(** *** The attribute report: which rows give a record *)





(** *** The chunk of a state-report record *)

Lemma clean_name_truthy name name_type :
  truthy (Chunker.clean_name name name_type) = false
  <-> Chunker.clean_name name name_type = PNone.
Proof.
  destruct (clean_name_cases name name_type) as [ -> | (s & -> & N & _) ].
  - now split.
  - split; [|discriminate]. intros T. apply str_truthy in N. congruence.
Qed.

(** X22: [build_state_report_chunk] returns [None] exactly for a [dict]
    record whose assessment unit cleans to no name: [None], an empty or
    blank text, [null] or [none]. *)
Theorem state_chunk_none_iff (record state year : pyval) (source : string)
    (row_index : Z) :
  Chunker.build_state_report_chunk record state year source row_index = Ok None
  <-> exists kvs, record = PDict kvs
                  /\ Chunker.clean_name (dict_get record "assessment_unit") "block"
                     = PNone.
Proof.
  unfold Chunker.build_state_report_chunk. split.
  - intros H. destruct record as [| | | | |kvs|]; try discriminate H.
    exists kvs. split; [reflexivity|]. cbn [get bind] in H.
    apply clean_name_truthy.
    destruct (truthy (Chunker.clean_name _ "block")); [|reflexivity].
    exfalso. cbn [negb] in H. cbv zeta in H.
    repeat step_bind H. discriminate H.
  - intros (kvs & -> & B). cbn [get bind].
    change (dict_get_or (PDict kvs) "assessment_unit" PNone)
      with (dict_get (PDict kvs) "assessment_unit").
    now rewrite B.
Qed.

(** X23: a chunk returned by [build_state_report_chunk] has a block name
    that is not empty, has no white space at its ends and is not [null]
    or [none]; its id has 16 characters, its source type is
    [state_report] and state and year are the ones passed in. *)
Theorem state_chunk_block (record state year : pyval) (source : string)
    (row_index : Z) (chunk : pyval) :
  Chunker.build_state_report_chunk record state year source row_index = Ok (Some chunk) ->
  (exists b, dict_get chunk "block" = PStr b
             /\ b <> "" /\ lower b <> "null" /\ lower b <> "none"
             /\ starts_space b = false /\ ends_space b = false)
  /\ (exists id, dict_get chunk "id" = PStr id /\ String.length id = 16%nat)
  /\ dict_get chunk "source_type" = PStr "state_report"
  /\ dict_get chunk "state" = state
  /\ dict_get chunk "year" = year.
Proof.
  intros H. unfold Chunker.build_state_report_chunk in H.
  do 4 step_bind H.
  destruct (truthy (Chunker.clean_name _ "block")) eqn:T; [|discriminate].
  cbn [negb] in H. cbv zeta in H.
  repeat step_bind H. cbn [ret] in H. injection H as <-.
  unfold dict_get, dict_get_or.
  cbn [lookup String.eqb Ascii.eqb Bool.eqb].
  split; [|split; [|repeat split]].
  - match type of T with
    | truthy (Chunker.clean_name ?a _) = true =>
        destruct (clean_name_cases a "block") as [CN|(s & CN & N)]
    end.
    + rewrite CN in T. discriminate T.
    + exists s. now split.
  - eexists. split; [reflexivity|apply length_chunk_id].
Qed.

Lemma state_chunk_block_witness :
  exists chunk,
    Chunker.build_state_report_chunk block_record (PStr "StateX") (PStr "2022-2023")
                                     "state_reports/a.json" 12
    = Ok (Some chunk)
    /\ dict_get chunk "block" = PStr "Block Z"
    /\ dict_get chunk "state" = PStr "StateX".
Proof.
  eexists. split; [vm_compute; reflexivity|]. split; [reflexivity|].
  refine (proj1 (proj2 (proj2 (proj2 (state_chunk_block
            block_record (PStr "StateX") (PStr "2022-2023") "state_reports/a.json" 12
            _ _))))).
  vm_compute; reflexivity.
Defined.
